(** * IES: road-state telemetry pipeline

    A shallow embedding of the three Python sources of the repository:

    - [lab4/app/usecases/data_processing.py]  (module [Classifier]),
    - [lab1/src/file_datasource.py]           (module [Datasource]),
    - [lab2/main.py]                          (module [Api]).

    Python values are modelled by the types of module [Py]; code that raises
    is modelled with the sum type [Py.result]; code that mutates an object or
    talks to the database and the websockets threads an explicit state. *)

From Stdlib Require Import ZArith Lia Ascii String.
From Stdlib Require Import Floats.SpecFloat.
From stdpp Require Import base option list strings gmap.

Local Open Scope Z_scope.

(** ** Python values and outcomes *)

Module Py.

(** A Python [float] is an IEEE-754 binary64 number. *)
Definition float := spec_float.

(** [float(n)] for the small integer literals of the sources. *)
Definition float_of_pos (m : positive) (e : Z) : float := S754_finite false m e.

(** [x < y] and [x <= y] on binary64 (false whenever a NaN is involved). *)
Definition flt (x y : float) : bool := SFltb x y.
Definition fle (x y : float) : bool := SFleb x y.

(** [x > y] is evaluated by Python as the reflected [y < x]. *)
Definition fgt (x y : float) : bool := flt y x.

(** A [datetime] value; the sources only carry it around. *)
Record datetime := Datetime { isoformat : string }.

(** The exceptions that the sources raise, catch, or let through. *)
Inductive exn :=
| StopIteration
| SystemExit
| AttributeError (attr : string)
| TypeError
| ValueError
| IndexError
| KeyError
| FileNotFoundError (filename : string)
| HTTPException (status_code : Z) (detail : string)
| WebSocketError.

(** [except Exception] catches everything but the [BaseException]-only
    classes, of which the sources use [SystemExit]. *)
Definition is_Exception (e : exn) : bool :=
  match e with
  | SystemExit => false
  | _ => true
  end.

Inductive result (A : Type) :=
| Return (a : A)
| Raise (e : exn).
Arguments Return {A} a.
Arguments Raise {A} e.

Definition returns {A} (r : result A) : bool :=
  match r with Return _ => true | Raise _ => false end.

(** Statements that run against a mutable state [S] (an object, the
    database, the sockets) and either return or raise. *)
Definition M (S A : Type) : Type := S → result A * S.

Definition ret {S A} (a : A) : M S A := λ s, (Return a, s).
Definition raise {S A} (e : exn) : M S A := λ s, (Raise e, s).
Definition bind {S A B} (m : M S A) (k : A → M S B) : M S B :=
  λ s, match m s with
       | (Return a, s') => k a s'
       | (Raise e, s') => (Raise e, s')
       end.
Definition get {S} : M S S := λ s, (Return s, s).
Definition modify {S} (f : S → S) : M S unit := λ s, (Return tt, f s).

(** [try: body except <classes>: handler]; [catches] decides the classes. *)
Definition try_except {S A} (body : M S A) (catches : exn → bool)
    (handler : exn → M S A) : M S A :=
  λ s, match body s with
       | (Raise e, s') => if catches e then handler e s' else (Raise e, s')
       | returned => returned
       end.

(** [try: body finally: cleanup]: the cleanup always runs; what it raises
    replaces the outcome of the body. *)
Definition try_finally {S A} (body : M S A) (cleanup : M S unit) : M S A :=
  λ s, match body s with
       | (r, s') =>
           match cleanup s' with
           | (Return _, s'') => (r, s'')
           | (Raise e, s'') => (Raise e, s'')
           end
       end.

(** Lifting a pure outcome. *)
Definition lift {S A} (r : result A) : M S A := λ s, (r, s).

(** [seq[i]] on a Python list. *)
Definition getitem {A} (l : list A) (i : nat) : result A :=
  match l !! i with
  | Some a => Return a
  | None => Raise IndexError
  end.

(** [next(it)] on an iterator over the remaining items [it]. *)
Definition next {A} (it : list A) : result (A * list A) :=
  match it with
  | a :: it' => Return (a, it')
  | [] => Raise StopIteration
  end.

End Py.

Declare Scope py_scope.
Delimit Scope py_scope with py.
Notation "x <- m ;; k" := (Py.bind m (λ x, k))
  (at level 100, m at next level, right associativity) : py_scope.
Notation "m ;;; k" := (Py.bind m (λ _, k))
  (at level 100, right associativity) : py_scope.

Import Py.

(** ** lab4: the classifier *)

Module Classifier.

(** Modelled from the spec: the entity classes of [app.entities.agent_data]
    and [app.entities.processed_agent_data], which the use case imports and
    which are not among the sources.  Section 3 of the spec gives their
    fields; the readings are floats, as in the classes of the same names that
    [lab2/main.py] declares. *)
Record AccelerometerData := { x : float; y : float; z : float }.
Record GpsData := { latitude : float; longitude : float }.
Record AgentData :=
  { accelerometer : AccelerometerData; gps : GpsData; timestamp : datetime }.
Record ProcessedAgentData := { road_state : string; agent_data : AgentData }.

(** The literal [15]: mantissa [15 * 2^49], exponent [-49]. *)
Definition fifteen : float := float_of_pos 8444249301319680 (-49).

Definition process_agent_data (agent_data : AgentData) : ProcessedAgentData :=
  let road_state := "straight" in
  let road_state :=
    if fgt (y (accelerometer agent_data)) fifteen then "pit" else road_state in
  {| road_state := road_state; agent_data := agent_data |}.

End Classifier.

(** ** lab1: the file datasource *)

Module Datasource.

Local Open Scope py_scope.

(** A CSV row as [csv.reader] yields it: the list of its fields. *)
Definition row := list string.

(** A [csv.reader] object, as far as the code observes it: the rows it has
    not yielded yet.  It is an iterator: it has [__iter__] and [__next__],
    and the attributes [dialect] and [line_num]; nothing else. *)
Record reader := Reader { pending : list row }.

Definition reader_attributes : list string :=
  ["__iter__"; "__next__"; "dialect"; "line_num"].

(** The attribute lookup [r.name] that starts a method call [r.name()]. *)
Definition reader_getattr (name : string) (r : reader) : result unit :=
  if bool_decide (name ∈ reader_attributes) then Return tt
  else Raise (AttributeError name).

(** [r.close()]: the lookup of [close], then the call of what it found. *)
Definition reader_close (r : reader) : result unit :=
  match reader_getattr "close" r with
  | Return _ => Return tt
  | Raise e => Raise e
  end.

(** The classes of [domain/] are not among the sources: each is taken as the
    free constructor of its arguments, in the order in which [read] passes
    them. *)
Inductive Accelerometer := mkAccelerometer (x y z : Z).
Inductive Gps := mkGps (c0 c1 : float).
Inductive Parking := mkParking (empty_count : Z) (gps : Gps).
Inductive AggregatedData :=
  mkAggregatedData (accelerometer : Accelerometer) (gps : Gps)
    (parking : Parking) (timestamp : datetime) (user_id : Z).

Record FileDatasource :=
  { accelerometer_filename : string;
    gps_filename : string;
    parking_filename : string;
    accelerometer_data : option reader;
    gps_data : option reader;
    parking_data : option reader }.

Definition init (accelerometer_filename gps_filename parking_filename : string)
    : FileDatasource :=
  {| accelerometer_filename := accelerometer_filename;
     gps_filename := gps_filename;
     parking_filename := parking_filename;
     accelerometer_data := None;
     gps_data := None;
     parking_data := None |}.

Definition set_accelerometer_data (v : option reader) (self : FileDatasource) :=
  {| accelerometer_filename := accelerometer_filename self;
     gps_filename := gps_filename self;
     parking_filename := parking_filename self;
     accelerometer_data := v;
     gps_data := gps_data self;
     parking_data := parking_data self |}.

Definition set_gps_data (v : option reader) (self : FileDatasource) :=
  {| accelerometer_filename := accelerometer_filename self;
     gps_filename := gps_filename self;
     parking_filename := parking_filename self;
     accelerometer_data := accelerometer_data self;
     gps_data := v;
     parking_data := parking_data self |}.

Definition set_parking_data (v : option reader) (self : FileDatasource) :=
  {| accelerometer_filename := accelerometer_filename self;
     gps_filename := gps_filename self;
     parking_filename := parking_filename self;
     accelerometer_data := accelerometer_data self;
     gps_data := gps_data self;
     parking_data := v |}.

(** The process around the object: the files on disk (each with the rows a
    reader over it yields) and the lines printed so far. *)
Record process :=
  { self : FileDatasource;
    files : gmap string (list row);
    stdout : list string }.

Definition on_self (f : FileDatasource → FileDatasource) : M process unit :=
  modify (λ p, {| self := f (self p); files := files p; stdout := stdout p |}).

Definition print (line : string) : M process unit :=
  modify (λ p, {| self := self p; files := files p; stdout := stdout p ++ [line] |}).

(** [reader(open(filename))] *)
Definition open_reader (filename : string) : M process reader :=
  p <- get ;;
  match files p !! filename with
  | Some rows => ret (Reader rows)
  | None => raise (FileNotFoundError filename)
  end.

(** [next(field)], where the field holds [None] or a reader; the reader is
    advanced in place. *)
Definition next_row (field : FileDatasource → option reader)
    (set : option reader → FileDatasource → FileDatasource) : M process row :=
  p <- get ;;
  match field (self p) with
  | None => raise TypeError
  | Some r =>
      match next (pending r) with
      | Return (a, rest) => (on_self (set (Some (Reader rest))) ;;; ret a)
      | Raise e => raise e
      end
  end.

Definition sys_exit {A} : M process A := raise SystemExit.

Section Read.

(** [int(s)] and [float(s)] on a string; [None] stands for [ValueError]. *)
Variable py_int : string → option Z.
Variable py_float : string → option float.
(** [config.USER_ID] *)
Variable USER_ID : Z.

Definition int_field (r : row) (i : nat) : result Z :=
  match getitem r i with
  | Return s => match py_int s with Some n => Return n | None => Raise ValueError end
  | Raise e => Raise e
  end.

Definition float_field (r : row) (i : nat) : result float :=
  match getitem r i with
  | Return s => match py_float s with Some f => Return f | None => Raise ValueError end
  | Raise e => Raise e
  end.

(** The expression [AggregatedData(...)] of [read], its arguments
    evaluated from left to right; [now] is what [datetime.now()] gives. *)
Definition aggregate (now : datetime)
    (accelerometer_data_row gps_data_row parking_data_row : row)
    : M process AggregatedData :=
  ax <- lift (int_field accelerometer_data_row 0) ;;
  ay <- lift (int_field accelerometer_data_row 1) ;;
  az <- lift (int_field accelerometer_data_row 2) ;;
  g0 <- lift (float_field gps_data_row 0) ;;
  g1 <- lift (float_field gps_data_row 1) ;;
  p0 <- lift (int_field parking_data_row 0) ;;
  p1 <- lift (float_field parking_data_row 1) ;;
  p2 <- lift (float_field parking_data_row 2) ;;
  ret (mkAggregatedData (mkAccelerometer ax ay az) (mkGps g0 g1)
         (mkParking p0 (mkGps p1 p2)) now USER_ID).

Definition read (now : datetime) : M process AggregatedData :=
  rows <- try_except
            (accelerometer_data_row <- next_row accelerometer_data set_accelerometer_data ;;
             gps_data_row <- next_row gps_data set_gps_data ;;
             parking_data_row <- next_row parking_data set_parking_data ;;
             ret (accelerometer_data_row, gps_data_row, parking_data_row))
            (λ e, match e with StopIteration => true | _ => false end)
            (λ _, sys_exit) ;;
  let '(accelerometer_data_row, gps_data_row, parking_data_row) := rows in
  aggregate now accelerometer_data_row gps_data_row parking_data_row.

End Read.

Definition startReading : M process unit :=
  try_except
    (p <- get ;;
     r <- open_reader (accelerometer_filename (self p)) ;;
     on_self (set_accelerometer_data (Some r)) ;;;
     _ <- next_row accelerometer_data set_accelerometer_data ;;
     r <- open_reader (gps_filename (self p)) ;;
     on_self (set_gps_data (Some r)) ;;;
     _ <- next_row gps_data set_gps_data ;;
     r <- open_reader (parking_filename (self p)) ;;
     on_self (set_parking_data (Some r)) ;;;
     _ <- next_row parking_data set_parking_data ;;
     ret tt)
    (λ e, match e with FileNotFoundError _ => true | _ => false end)
    (λ e, match e with
          | FileNotFoundError filename =>
              print ("File not found: " +:+ filename) ;;; sys_exit
          | _ => raise e
          end).

(** [if field: field.close()]: [None] is falsy, a reader object (which
    defines neither [__bool__] nor [__len__]) is truthy. *)
Definition close_if_set (field : FileDatasource → option reader) : M process unit :=
  p <- get ;;
  match field (self p) with
  | Some r => lift (reader_close r)
  | None => ret tt
  end.

Definition stopReading : M process unit :=
  close_if_set accelerometer_data ;;;
  close_if_set gps_data ;;;
  close_if_set parking_data.

End Datasource.

(** ** JSON text of a string, as [json.dumps] writes it *)

Module Json.

Local Open Scope char_scope.

Definition quote : ascii := "034".
Definition backslash : ascii := "092".

Definition hex_digit (n : N) : ascii :=
  if (n <? 10)%N then ascii_of_N (48 + n) else ascii_of_N (87 + n).

(** ['\\u{0:04x}'.format(n)] for a code point below 256 *)
Definition u_escape (c : ascii) : string :=
  let n := N_of_ascii c in
  String backslash (String "u" (String "0" (String "0"
    (String (hex_digit (n / 16)) (String (hex_digit (n mod 16)) EmptyString))))).

Definition short_escape (c : ascii) : string :=
  String backslash (String c EmptyString).

(** [ESCAPE_DCT] / [ESCAPE_ASCII] of [json.encoder]: the replacement of one
    character.  With [ensure_ascii] everything outside [' '..'~'] is
    escaped, without it only the quote, the backslash and the control
    characters are. *)
Definition escape_char (ensure_ascii : bool) (c : ascii) : string :=
  let n := N_of_ascii c in
  if (n =? 34)%N then short_escape quote
  else if (n =? 92)%N then short_escape backslash
  else if (n =? 8)%N then short_escape "b"
  else if (n =? 12)%N then short_escape "f"
  else if (n =? 10)%N then short_escape "n"
  else if (n =? 13)%N then short_escape "r"
  else if (n =? 9)%N then short_escape "t"
  else if (n <? 32)%N then u_escape c
  else if ensure_ascii && (126 <? n)%N then u_escape c
  else String c EmptyString.

Fixpoint escape (ensure_ascii : bool) (s : string) : string :=
  match s with
  | EmptyString => EmptyString
  | String c s' => (escape_char ensure_ascii c ++ escape ensure_ascii s')%string
  end.

(** [json.dumps(s)] for a [str]: [py_encode_basestring(_ascii)]. *)
Definition encode_basestring (ensure_ascii : bool) (s : string) : string :=
  String quote (escape ensure_ascii s ++ String quote EmptyString)%string.

(** The decoder of one JSON string literal ([json.decoder.py_scanstring],
    strict), used to read a frame back. *)
Definition hex_value (c : ascii) : option N :=
  let n := N_of_ascii c in
  if (48 <=? n)%N && (n <=? 57)%N then Some (n - 48)%N
  else if (97 <=? n)%N && (n <=? 102)%N then Some (n - 87)%N
  else if (65 <=? n)%N && (n <=? 70)%N then Some (n - 55)%N
  else None.

Definition code_point (a b c d : ascii) : option ascii :=
  match hex_value a, hex_value b, hex_value c, hex_value d with
  | Some 0%N, Some 0%N, Some h, Some l => Some (ascii_of_N (16 * h + l))
  | _, _, _, _ => None
  end.

Definition unescape_short (c : ascii) : option ascii :=
  let n := N_of_ascii c in
  if (n =? 34)%N then Some quote
  else if (n =? 92)%N then Some backslash
  else if (n =? 47)%N then Some "/"
  else if (n =? 98)%N then Some "008"
  else if (n =? 102)%N then Some "012"
  else if (n =? 110)%N then Some "010"
  else if (n =? 114)%N then Some "013"
  else if (n =? 116)%N then Some "009"
  else None.

Definition cons_char (c : option ascii) (s : option string) : option string :=
  match c, s with
  | Some c, Some s => Some (String c s)
  | _, _ => None
  end.

(** The characters after the opening quote, up to the closing quote, which
    must end the text. *)
Fixpoint scanstring (s : string) : option string :=
  match s with
  | EmptyString => None
  | String c rest =>
      if (N_of_ascii c =? 34)%N then
        match rest with EmptyString => Some EmptyString | _ => None end
      else if (N_of_ascii c =? 92)%N then
        match rest with
        | String "u" (String h3 (String h2 (String h1 (String h0 rest')))) =>
            cons_char (code_point h3 h2 h1 h0) (scanstring rest')
        | String e rest' => cons_char (unescape_short e) (scanstring rest')
        | EmptyString => None
        end
      else if (N_of_ascii c <? 32)%N then None
      else cons_char (Some c) (scanstring rest)
  end.

(** [json.loads(text)] when the text is one string literal *)
Definition loads_str (text : string) : option string :=
  match text with
  | String c rest => if (N_of_ascii c =? 34)%N then scanstring rest else None
  | EmptyString => None
  end.

End Json.

(** ** lab2: the store API and the subscribers *)

Module Api.

Local Open Scope py_scope.

Definition COLUMN_ROAD_STATE : string := "road_state".
Definition COLUMN_X : string := "x".
Definition COLUMN_Y : string := "y".
Definition COLUMN_Z : string := "z".
Definition COLUMN_LATITUDE : string := "latitude".
Definition COLUMN_LONGITUDE : string := "longitude".
Definition COLUMN_TIMESTAMP : string := "timestamp".

Record AccelerometerData := { x : float; y : float; z : float }.
Record GpsData := { latitude : float; longitude : float }.
Record AgentData :=
  { accelerometer : AccelerometerData; gps : GpsData; timestamp : datetime }.
Record ProcessedAgentData := { road_state : string; agent_data : AgentData }.

(** What a column of the table [processed_agent_data] holds. *)
Inductive value :=
| VString (s : string)
| VFloat (f : float)
| VDateTime (d : datetime).

(** A row of the table: the primary key and the other columns by name. *)
Record Row := { id : Z; columns : gmap string value }.

(** The statements that the handlers build for the table. *)
Inductive statement :=
| InsertValues (values : list (gmap string value))
| SelectWhereId (n : Z)
| UpdateWhereId (n : Z) (values : gmap string value)
| DeleteWhereId (n : Z).

Definition WebSocket := nat.

(** The world outside the handlers.

    - The database: the committed rows of the table, the next value of the
      [id] sequence, and the work of a session that is open and not
      committed, if there is one.
    - The sockets: the module-level set [subscriptions], as the list of its
      members in the order in which a [for] loop visits them; [send_fails]
      tells the sockets on which a send raises; [sent] is the log of the text
      frames that went out, oldest first. *)
Record World :=
  { table : list Row;
    id_seq : Z;
    session : option (list Row * Z);
    subscriptions : list WebSocket;
    send_fails : WebSocket → bool;
    sent : list (WebSocket * string) }.

Definition set_subscriptions (l : list WebSocket) (w : World) : World :=
  {| table := table w; id_seq := id_seq w; session := session w;
     subscriptions := l; send_fails := send_fails w; sent := sent w |}.

Definition log_sent (frame : WebSocket * string) (w : World) : World :=
  {| table := table w; id_seq := id_seq w; session := session w;
     subscriptions := subscriptions w; send_fails := send_fails w;
     sent := sent w ++ [frame] |}.

(** *** The object that [get_db] makes *)

(** [sessionmaker(autocommit=False, autoflush=False, bind=engine)] is a
    factory of sessions, not a session: calling it would give one, and the
    module never calls it.  These are the attributes that the factory has
    of its own, besides those of every object; [close], [execute],
    [commit] and [query] are attributes of a session and not among them. *)
Definition sessionmaker_attributes : list string :=
  ["__call__"; "begin"; "class_"; "close_all"; "configure"; "identity_key";
   "kw"; "object_session"].

(** The attribute lookup [db.name] that starts a method call [db.name(...)]. *)
Definition sessionmaker_getattr (name : string) : result unit :=
  if bool_decide (name ∈ sessionmaker_attributes) then Return tt
  else Raise (AttributeError name).

(** [row = result.fetchone()] *)
Definition fetchone (rows : list Row) : option Row := head rows.

Section Handlers.

(** What the methods of a session do to the database when they are called.
    The code gets to them only through an attribute of [db]; the handlers
    are defined for every behaviour of the four. *)
Variable execute : statement → M World (list Row).
Variable commit : M World unit.
Variable query_all : M World (list Row).
Variable close : M World unit.

(** [db.name(...)] on the object that [get_db] made: the lookup of [name],
    then the call of what it found. *)
Definition db_method {A} (name : string) (call : M World A) : M World A :=
  lift (sessionmaker_getattr name) ;;; call.

(** [get_db()]: [db] is the sessionmaker; the [finally] of the function
    runs [db.close()] before the [return db] takes effect. *)
Definition get_db : M World unit :=
  try_finally (ret tt) (db_method "close" close).

(** *** The CRUDL handlers *)

(** The dict literal of [create_processed_agent_data] and of
    [update_processed_agent_data]: keys are entered in the order written. *)
Definition new_processed_agent_data (item : ProcessedAgentData)
    : gmap string value :=
  <[COLUMN_TIMESTAMP := VDateTime (timestamp (agent_data item))]>
  (<[COLUMN_LONGITUDE := VFloat (longitude (gps (agent_data item)))]>
  (<[COLUMN_LATITUDE := VFloat (latitude (gps (agent_data item)))]>
  (<[COLUMN_Z := VFloat (z (accelerometer (agent_data item)))]>
  (<[COLUMN_Y := VFloat (y (accelerometer (agent_data item)))]>
  (<[COLUMN_X := VFloat (x (accelerometer (agent_data item)))]>
  (<[COLUMN_ROAD_STATE := VString (road_state item)]> ∅)))))).

(** [except Exception: raise HTTPException(status_code=500, detail="Error")] *)
Definition or_500 {A} (body : M World A) : M World A :=
  try_except body is_Exception (λ _, raise (HTTPException 500 "Error")).

(** The [for item in data] loop that fills [processed_agent_data_list]. *)
Fixpoint collect (data : list ProcessedAgentData)
    (processed_agent_data_list : list (gmap string value))
    : M World (list (gmap string value)) :=
  match data with
  | [] => ret processed_agent_data_list
  | item :: data' =>
      l <- or_500 (ret (processed_agent_data_list ++ [new_processed_agent_data item])) ;;
      collect data' l
  end.

Definition create_processed_agent_data (data : list ProcessedAgentData)
    : M World unit :=
  get_db ;;;
  processed_agent_data_list <- collect data [] ;;
  let insert_processed_agent_data := InsertValues processed_agent_data_list in
  try_finally
    (or_500
       (db_method "execute" (execute insert_processed_agent_data) ;;;
        db_method "commit" commit))
    (db_method "close" close).

Definition read_processed_agent_data (processed_agent_data_id : Z)
    : M World (option Row) :=
  get_db ;;;
  try_finally
    (or_500
       (let select_processed_agent_data := SelectWhereId processed_agent_data_id in
        rows <- db_method "execute" (execute select_processed_agent_data) ;;
        ret (fetchone rows)))
    (db_method "close" close).

Definition list_processed_agent_data : M World (list Row) :=
  get_db ;;;
  try_finally
    (or_500 (db_method "query" query_all))
    (db_method "close" close).

Definition update_processed_agent_data (processed_agent_data_id : Z)
    (data : ProcessedAgentData) : M World (option Row) :=
  get_db ;;;
  try_finally
    (or_500
       (let update_processed_agent_data :=
          UpdateWhereId processed_agent_data_id (new_processed_agent_data data) in
        db_method "execute" (execute update_processed_agent_data) ;;;
        db_method "commit" commit ;;;
        let select_processed_agent_data := SelectWhereId processed_agent_data_id in
        rows <- db_method "execute" (execute select_processed_agent_data) ;;
        ret (fetchone rows)))
    (db_method "close" close).

Definition delete_processed_agent_data (processed_agent_data_id : Z)
    : M World (option Row) :=
  get_db ;;;
  try_finally
    (or_500
       (rows <- db_method "execute"
                  (execute (SelectWhereId processed_agent_data_id)) ;;
        let select_processed_agent_data := fetchone rows in
        match select_processed_agent_data with
        | None => raise (HTTPException 400 "Not found")
        | Some _ =>
            let delete_data := DeleteWhereId processed_agent_data_id in
            db_method "execute" (execute delete_data) ;;;
            db_method "commit" commit ;;;
            ret select_processed_agent_data
        end))
    (db_method "close" close).

End Handlers.

(** The status line that the framework derives from what a handler did: the
    status of an [HTTPException]; 500 for any other exception; and for a
    return, 200 when the value passes the [response_model] of the route and
    500 when it does not. *)
Definition status_code {A} (response_model : A → bool) (r : result A) : Z :=
  match r with
  | Return a => if response_model a then 200 else 500
  | Raise (HTTPException status _) => status
  | Raise _ => 500
  end.

(** A route that declares no [response_model] *)
Definition no_response_model (a : unit) : bool := true.

(** [response_model=ProcessedAgentDataInDB], where [fits] tells the rows
    whose columns pass the fields of the model: [None] is not one. *)
Definition one_stored_record (fits : Row → bool) (r : option Row) : bool :=
  match r with
  | Some row => fits row
  | None => false
  end.

Definition client_error (status : Z) : bool := (400 <=? status) && (status <? 500).
Definition server_error (status : Z) : bool := (500 <=? status) && (status <? 600).

(** *** The subscribers *)

(** [websocket_endpoint] on [WebSocketDisconnect]:
    [subscriptions.remove(websocket)], which raises [KeyError] for a socket
    that is not in the set. *)
Definition websocket_disconnect (websocket : WebSocket) : M World unit :=
  w <- get ;;
  if bool_decide (websocket ∈ subscriptions w) then
    modify (set_subscriptions
              (List.filter (λ s, negb (bool_decide (s = websocket)))
                 (subscriptions w)))
  else raise KeyError.

Fixpoint for_each {A} (l : list A) (body : A → M World unit) : M World unit :=
  match l with
  | [] => ret tt
  | a :: l' => body a ;;; for_each l' body
  end.

Section Broadcast.

(** Whether the [json.dumps] inside the framework's [send_json] escapes
    non-ASCII characters. *)
Variable ensure_ascii : bool.

(** [websocket.send_json(text)] for a [str]: the text frame is the JSON text
    of the string; a socket that cannot send raises. *)
Definition send_json (websocket : WebSocket) (text : string) : M World unit :=
  w <- get ;;
  if send_fails w websocket then raise WebSocketError
  else modify (log_sent (websocket, Json.encode_basestring ensure_ascii text)).

(** The payloads a caller may pass, and [json.dumps] on them (it raises
    [TypeError] on an object it cannot serialise). *)
Variable Payload : Type.
Variable json_dumps : Payload → result string.

(** One run of the loop from its first to its last iteration, each send
    ending before the next starts and the set not changed in between. *)
Definition send_data_to_subscribers (data : Payload) : M World unit :=
  w <- get ;;
  for_each (subscriptions w)
    (λ websocket, text <- lift (json_dumps data) ;; send_json websocket text).

End Broadcast.

(** *** The request boundary of the ingestion endpoint *)

(** What a request may carry in the place of a timestamp. *)
Inductive raw_timestamp :=
| RawDatetime (d : datetime)
| RawStr (s : string)
| RawNumber (n : Z)
| RawOther.

Record AgentDataIn :=
  { accelerometer_in : AccelerometerData;
    gps_in : GpsData;
    timestamp_in : raw_timestamp }.
Record ProcessedAgentDataIn :=
  { road_state_in : string; agent_data_in : AgentDataIn }.

(** What the body of a model class binds a name to: a plain function, the
    [classmethod] object around something, or the proxy object in which
    [field_validator] wraps something together with the field and the mode
    it is meant for. *)
Inductive class_attribute :=
| Function (f : raw_timestamp → result datetime)
| ClassMethod (wrapped : class_attribute)
| PydanticDescriptorProxy (wrapped : class_attribute) (field mode : string).

Definition classmethod (a : class_attribute) : class_attribute := ClassMethod a.

Definition field_validator (field mode : string) (a : class_attribute)
    : class_attribute :=
  PydanticDescriptorProxy a field mode.

Fixpoint function_of (a : class_attribute) : raw_timestamp → result datetime :=
  match a with
  | Function f => f
  | ClassMethod wrapped => function_of wrapped
  | PydanticDescriptorProxy wrapped _ _ => function_of wrapped
  end.

(** The validators that the model class registers for a field when it is
    built: the functions of those values of the class body that are
    themselves proxy objects for that field and mode.  A proxy inside
    another object is not looked for. *)
Definition registered (namespace : list (string * class_attribute))
    (field mode : string) : list (raw_timestamp → result datetime) :=
  omap (λ entry,
        match snd entry with
        | PydanticDescriptorProxy wrapped field' mode' =>
            if bool_decide (field' = field) && bool_decide (mode' = mode)
            then Some (function_of wrapped) else None
        | _ => None
        end) namespace.

(** The validators of mode [before] run on the raw value, one after the
    other; what the last returns goes to the parser of the field's type. *)
Fixpoint run_before (validators : list (raw_timestamp → result datetime))
    (value : raw_timestamp) : result raw_timestamp :=
  match validators with
  | [] => Return value
  | validator :: validators' =>
      match validator value with
      | Return d => run_before validators' (RawDatetime d)
      | Raise e => Raise e
      end
  end.

Section Validation.

(** [datetime.fromisoformat] on a string; [None] stands for its
    [ValueError]. *)
Variable fromisoformat : string → option datetime.

(** The parser that the framework applies to a field declared [datetime];
    [None] stands for its refusal. *)
Variable datetime_field : raw_timestamp → option datetime.

(** [datetime.fromisoformat(value)]: [TypeError] on anything but a [str]. *)
Definition datetime_fromisoformat (value : raw_timestamp) : result datetime :=
  match value with
  | RawStr s =>
      match fromisoformat s with
      | Some d => Return d
      | None => Raise ValueError
      end
  | _ => Raise TypeError
  end.

(** The function [check_timestamp] of the class body of [AgentData]. *)
Definition check_timestamp (value : raw_timestamp) : result datetime :=
  match value with
  | RawDatetime d => Return d
  | _ =>
      match datetime_fromisoformat value with
      | Return d => Return d
      | Raise TypeError | Raise ValueError => Raise ValueError
      | Raise e => Raise e
      end
  end.

(** The class body of [AgentData]: the decorators apply from the one next
    to the [def] outwards, so the name is bound to a [classmethod] object
    around the proxy. *)
Definition AgentData_namespace : list (string * class_attribute) :=
  [("check_timestamp",
    classmethod (field_validator "timestamp" "before" (Function check_timestamp)))].

(** The validation of the [timestamp] of one record. *)
Definition validate_timestamp (value : raw_timestamp) : result datetime :=
  match run_before (registered AgentData_namespace "timestamp" "before") value with
  | Return v =>
      match datetime_field v with
      | Some d => Return d
      | None => Raise ValueError
      end
  | Raise e => Raise e
  end.

(** The construction of one [ProcessedAgentData] from a request item. *)
Definition validate (item : ProcessedAgentDataIn) : result ProcessedAgentData :=
  match validate_timestamp (timestamp_in (agent_data_in item)) with
  | Return d =>
      Return {| road_state := road_state_in item;
                agent_data :=
                  {| accelerometer := accelerometer_in (agent_data_in item);
                     gps := gps_in (agent_data_in item);
                     timestamp := d |} |}
  | Raise e => Raise e
  end.

Fixpoint validate_all (body : list ProcessedAgentDataIn)
    : result (list ProcessedAgentData) :=
  match body with
  | [] => Return []
  | item :: body' =>
      match validate item with
      | Return v =>
          match validate_all body' with
          | Return vs => Return (v :: vs)
          | Raise e => Raise e
          end
      | Raise e => Raise e
      end
  end.

Variable execute : statement → M World (list Row).
Variable commit : M World unit.
Variable close : M World unit.

(** [POST /processed_agent_data/]: the body is turned into
    [List[ProcessedAgentData]] first; a body that does not validate is
    answered with 422 and the handler is not called. *)
Definition post_processed_agent_data (body : list ProcessedAgentDataIn)
    : M World Z :=
  match validate_all body with
  | Raise _ => ret 422
  | Return data =>
      λ w, let '(r, w') := create_processed_agent_data execute commit close data w in
           (Return (status_code no_response_model r), w')
  end.

End Validation.

End Api.

(** * Vocabulary of the statements *)

Module ClassifierSpec.

(** The floats that Python has: the binary64 numbers in their one
    representation (mantissa of 53 bits, or fewer at the smallest
    exponent). *)
Definition binary64 (f : float) : Prop := valid_binary 53 1024 f = true.

(** The number [f] is greater than the integer [n], as numbers: the
    finite positive [m * 2^e] is compared exactly, the positive infinity is
    greater, and a NaN is not. *)
Definition exceeds (n : positive) (f : float) : Prop :=
  match f with
  | S754_infinity false => True
  | S754_finite false m e =>
      if 0 <=? e then Z.pos n < Z.pos m * 2 ^ e
      else Z.pos n * 2 ^ (- e) < Z.pos m
  | _ => False
  end.

(** The number [f] is at most the integer [n], as numbers; a NaN is
    not. *)
Definition at_most (n : positive) (f : float) : Prop :=
  match f with
  | S754_zero _ => True
  | S754_infinity negative => negative = true
  | S754_nan => False
  | S754_finite true _ _ => True
  | S754_finite false m e =>
      if 0 <=? e then Z.pos m * 2 ^ e ≤ Z.pos n
      else Z.pos m ≤ Z.pos n * 2 ^ (- e)
  end.

End ClassifierSpec.

Module DatasourceSpec.

Import Datasource.

Section Samples.

Variable py_int : string → option Z.
Variable py_float : string → option float.
Variable USER_ID : Z.

(** [d] is the sample that the three rows [a], [g], [k] spell out. *)
Definition sample_of (now : datetime) (a g k : row) (d : AggregatedData) : Prop :=
  ∃ ax ay az g0 g1 k0 k1 k2,
    int_field py_int a 0 = Return ax
    ∧ int_field py_int a 1 = Return ay
    ∧ int_field py_int a 2 = Return az
    ∧ float_field py_float g 0 = Return g0
    ∧ float_field py_float g 1 = Return g1
    ∧ int_field py_int k 0 = Return k0
    ∧ float_field py_float k 1 = Return k1
    ∧ float_field py_float k 2 = Return k2
    ∧ d = mkAggregatedData (mkAccelerometer ax ay az) (mkGps g0 g1)
            (mkParking k0 (mkGps k1 k2)) now USER_ID.

(** The process after any number of calls of [read], whatever they gave. *)
Fixpoint after_reads (clock : list datetime) (p : process) : process :=
  match clock with
  | [] => p
  | now :: clock' => after_reads clock' (read py_int py_float USER_ID now p).2
  end.

(** The spec's reading of a call of [read]: the call hands an outcome to
    its caller, a sample or the end of the stream, and does not fail. *)
Definition signals_outcome (now : datetime) (p : process) : Prop :=
  returns (read py_int py_float USER_ID now p).1 = true.

End Samples.

(** The datasource with its three readers left at the given rows. *)
Definition with_readers (ra rg rk : list row) (p : process) : process :=
  {| self := set_parking_data (Some (Reader rk))
               (set_gps_data (Some (Reader rg))
                  (set_accelerometer_data (Some (Reader ra)) (self p)));
     files := files p;
     stdout := stdout p |}.

Definition never_started (p : process) : Prop :=
  accelerometer_data (self p) = None
  ∧ gps_data (self p) = None
  ∧ parking_data (self p) = None.

End DatasourceSpec.

Module ApiSpec.

Import Api.

(** The subscribers that a loop over [l] gets to before a send raises. *)
Fixpoint reached (fails : WebSocket → bool) (l : list WebSocket) : list WebSocket :=
  match l with
  | [] => []
  | s :: l' => if fails s then [] else s :: reached fails l'
  end.

Definition all_sound (fails : WebSocket → bool) (l : list WebSocket) : bool :=
  forallb (λ s, negb (fails s)) l.

(** The text frame in which a subscriber gets the JSON text [text]. *)
Definition frame_of (ensure_ascii : bool) (text : string) : string :=
  Json.encode_basestring ensure_ascii text.

(** The frames that were logged after those of [w]. *)
Definition new_frames (w w' : World) : list (WebSocket * string) :=
  drop (length (sent w)) (sent w').

Section Broadcast.

Variable ensure_ascii : bool.
Variable Payload : Type.
Variable json_dumps : Payload → result string.

(** A broadcast that survives the failure of single subscribers: it
    returns, every subscriber whose send failed is gone from the registry,
    and every other subscriber has the payload. *)
Definition survives_failures (data : Payload) (w : World) : Prop :=
  let out := send_data_to_subscribers ensure_ascii Payload json_dumps data w in
  out.1 = Return tt
  ∧ (∀ s, s ∈ subscriptions w → send_fails w s = true →
          s ∉ subscriptions out.2)
  ∧ (∀ s text, s ∈ subscriptions w → send_fails w s = false →
               json_dumps data = Return text →
               (s, frame_of ensure_ascii text) ∈ new_frames w out.2).

End Broadcast.

End ApiSpec.

(** ** Sample data *)

Module Samples.

(** [float(n)] for a few small integers *)
Definition f1 : float := float_of_pos 4503599627370496 (-52).
Definition f2 : float := float_of_pos 4503599627370496 (-51).
Definition f3 : float := float_of_pos 6755399441055744 (-51).
Definition f10 : float := float_of_pos 5629499534213120 (-49).
Definition f16 : float := float_of_pos 4503599627370496 (-48).
Definition f20 : float := float_of_pos 5629499534213120 (-48).

Definition new_year : datetime := Datetime "2024-01-01T00:00:00".

(** A sample whose [y] is exactly 15, and one whose [y] is 16. *)
Definition on_the_threshold : Classifier.AgentData :=
  {| Classifier.accelerometer :=
       {| Classifier.x := f1; Classifier.y := Classifier.fifteen; Classifier.z := f3 |};
     Classifier.gps := {| Classifier.latitude := f10; Classifier.longitude := f20 |};
     Classifier.timestamp := new_year |}.

Definition over_the_threshold : Classifier.AgentData :=
  {| Classifier.accelerometer :=
       {| Classifier.x := f1; Classifier.y := f16; Classifier.z := f3 |};
     Classifier.gps := {| Classifier.latitude := f10; Classifier.longitude := f20 |};
     Classifier.timestamp := new_year |}.

(** *** A datasource over three small files *)

Fixpoint digits (s : string) (acc : Z) : option Z :=
  match s with
  | EmptyString => Some acc
  | String c s' =>
      let n := Z.of_N (N_of_ascii c) in
      if (48 <=? n) && (n <=? 57) then digits s' (10 * acc + (n - 48)) else None
  end.

Definition int_of (s : string) : option Z :=
  match s with
  | EmptyString => None
  | _ => digits s 0
  end.

Definition float_of (s : string) : option float :=
  if bool_decide (s = "10.0") then Some f10
  else if bool_decide (s = "20.0") then Some f20
  else None.

Definition disk : gmap string (list Datasource.row) :=
  {[ "accelerometer.csv" := [["x"; "y"; "z"]; ["1"; "2"; "16500"]];
     "gps.csv" := [["longitude"; "latitude"]; ["10.0"; "20.0"]];
     "parking.csv" :=
       [["empty_count"; "longitude"; "latitude"]; ["3"; "10.0"; "20.0"]] ]}.

Definition fresh_process : Datasource.process :=
  {| Datasource.self :=
       Datasource.init "accelerometer.csv" "gps.csv" "parking.csv";
     Datasource.files := disk;
     Datasource.stdout := [] |}.

Definition started_process : Datasource.process :=
  (Datasource.startReading fresh_process).2.

Definition drained_process : Datasource.process :=
  (Datasource.read int_of float_of 1 new_year started_process).2.

(** *** A store and two subscribers *)

Definition item : Api.ProcessedAgentData :=
  {| Api.road_state := "straight";
     Api.agent_data :=
       {| Api.accelerometer := {| Api.x := f1; Api.y := f2; Api.z := f3 |};
          Api.gps := {| Api.latitude := f10; Api.longitude := f20 |};
          Api.timestamp := new_year |} |}.

Definition pit : Api.ProcessedAgentData :=
  {| Api.road_state := "pit";
     Api.agent_data :=
       {| Api.accelerometer := {| Api.x := f1; Api.y := f16; Api.z := f3 |};
          Api.gps := {| Api.latitude := f10; Api.longitude := f20 |};
          Api.timestamp := new_year |} |}.

(** An empty table, no subscriber. *)
Definition empty_world : Api.World :=
  {| Api.table := []; Api.id_seq := 1; Api.session := None;
     Api.subscriptions := []; Api.send_fails := λ _, false; Api.sent := [] |}.

(** The same with two subscribers in the registry. *)
Definition two_subscribers : Api.World :=
  Api.set_subscriptions [1%nat; 2%nat] empty_world.

(** Two subscribers, the first of which cannot be sent to. *)
Definition first_subscriber_broken : Api.World :=
  {| Api.table := []; Api.id_seq := 1; Api.session := None;
     Api.subscriptions := [1%nat; 2%nat];
     Api.send_fails := λ s, bool_decide (s = 1%nat); Api.sent := [] |}.

(** Session methods that do nothing: enough to run the handlers, which do
    not get as far as any of them. *)
Definition execute_nothing (s : Api.statement) : M Api.World (list Api.Row) :=
  ret [].
Definition query_nothing : M Api.World (list Api.Row) := ret [].
Definition do_nothing : M Api.World unit := ret tt.

(** A payload type for the broadcast: JSON texts that are already written. *)
Definition dumps_text (text : string) : result string := Return text.

(** The JSON text of the object with the one member [label: pit]. *)
Definition pit_text : string :=
  "{" +:+ String Json.quote "label" +:+ String Json.quote ": "
      +:+ String Json.quote "pit" +:+ String Json.quote "}".

(** [datetime.fromisoformat] on the one timestamp of the samples. *)
Definition parse_new_year (s : string) : option datetime :=
  if bool_decide (s = "2024-01-01T00:00:00") then Some new_year else None.

(** The parser of a [datetime] field on the timestamps of the samples: it
    takes a number for the seconds since 1970, and 1704067200 is the first
    second of 2024 in UTC. *)
Definition new_year_utc : datetime := Datetime "2024-01-01T00:00:00+00:00".

Definition datetime_field (value : Api.raw_timestamp) : option datetime :=
  match value with
  | Api.RawDatetime d => Some d
  | Api.RawStr s => parse_new_year s
  | Api.RawNumber n =>
      if bool_decide (n = 1704067200) then Some new_year_utc else None
  | Api.RawOther => None
  end.

Definition good_request : Api.ProcessedAgentDataIn :=
  {| Api.road_state_in := "straight";
     Api.agent_data_in :=
       {| Api.accelerometer_in := {| Api.x := f1; Api.y := f2; Api.z := f3 |};
          Api.gps_in := {| Api.latitude := f10; Api.longitude := f20 |};
          Api.timestamp_in := Api.RawStr "2024-01-01T00:00:00" |} |}.

(** A record whose timestamp is the JSON number 1704067200. *)
Definition numeric_request : Api.ProcessedAgentDataIn :=
  {| Api.road_state_in := "straight";
     Api.agent_data_in :=
       {| Api.accelerometer_in := {| Api.x := f1; Api.y := f2; Api.z := f3 |};
          Api.gps_in := {| Api.latitude := f10; Api.longitude := f20 |};
          Api.timestamp_in := Api.RawNumber 1704067200 |} |}.

End Samples.

(** ** More vocabulary: the five handlers by name, the files on disk *)

Module StoreSpec.

Import Api.

(** The five handlers, by name, and what running one gives: whether it
    returned, and the world it left. *)
Inductive request :=
| Create (data : list ProcessedAgentData)
| Read (n : Z)
| ListAll
| Update (n : Z) (data : ProcessedAgentData)
| Delete (n : Z).

Definition outcome {A} (out : result A * World) : result unit * World :=
  (match out.1 with Return _ => Return tt | Raise e => Raise e end, out.2).

Section Handle.

Variable execute : statement → M World (list Row).
Variable commit : M World unit.
Variable query_all : M World (list Row).
Variable close : M World unit.

Definition handle (q : request) (w : World) : result unit * World :=
  match q with
  | Create data => outcome (create_processed_agent_data execute commit close data w)
  | Read n => outcome (read_processed_agent_data execute close n w)
  | ListAll => outcome (list_processed_agent_data query_all close w)
  | Update n data =>
      outcome (update_processed_agent_data execute commit close n data w)
  | Delete n => outcome (delete_processed_agent_data execute commit close n w)
  end.

End Handle.

End StoreSpec.

Module FilesSpec.

Import Datasource.

(** The three files of a datasource are on disk, each with a first line. *)
Definition files_ready (p : process) (ra rg rk : list row) : Prop :=
  ∃ ha hg hk,
    files p !! accelerometer_filename (self p) = Some (ha :: ra)
    ∧ files p !! gps_filename (self p) = Some (hg :: rg)
    ∧ files p !! parking_filename (self p) = Some (hk :: rk).


End FilesSpec.

(** * Properties *)

(** ** The classifier *)

Section ClassifierProperties.

Import Classifier ClassifierSpec.

Lemma digits2_pos_size m : digits2_pos m = Pos.size m.
Proof. induction m; simpl; congruence. Qed.

(** The mantissa [m] lies between the powers of two that its number of
    bits gives. *)
Lemma digits_bounds m :
  2 ^ (Z.pos (digits2_pos m) - 1) ≤ Z.pos m < 2 ^ Z.pos (digits2_pos m).
Proof.
  rewrite digits2_pos_size.
  pose proof (Pos.size_gt m) as Hgt. pose proof (Pos.size_le m) as Hle.
  apply Pos2Z.pos_lt_pos in Hgt. apply Pos2Z.pos_le_pos in Hle.
  rewrite Pos2Z.inj_pow in Hgt, Hle.
  assert (0 ≤ Z.pos (Pos.size m) - 1) as Hnn by lia.
  pose proof (Z.pow_succ_r 2 (Z.pos (Pos.size m) - 1) Hnn) as Hpow.
  replace (Z.succ (Z.pos (Pos.size m) - 1)) with (Z.pos (Pos.size m)) in Hpow by lia.
  change (Z.pos m~0) with (2 * Z.pos m) in Hle. lia.
Qed.

(** The comparison that the code makes is the comparison of the numbers:
    [y > 15] holds of a binary64 [y] exactly when [y] exceeds fifteen. *)
Lemma fgt_fifteen (y : float) :
  binary64 y → (fgt y fifteen = true ↔ exceeds 15 y).
Proof.
  unfold binary64, fgt, flt, SFltb, fifteen, float_of_pos.
  destruct y as [s|s| |s m e]; simpl.
  - intros _. split; [done|by destruct s].
  - intros _. destruct s; simpl; split; done.
  - intros _. split; done.
  - destruct s; simpl; [intros _; split; done|].
    unfold bounded, canonical_mantissa, fexp, emin.
    intros [Hcanon Hmax]%andb_prop.
    apply Z.eqb_eq in Hcanon. apply Z.leb_le in Hmax.
    pose proof (digits_bounds m) as [Hlo Hhi].
    set (d := Z.pos (digits2_pos m)) in *.
    change (PosDef.Pos.compare_cont Eq) with Pos.compare.
    change (match e with
            | Z.neg y' => CompOpp (49 ?= y')%positive
            | _ => Lt
            end) with (-49 ?= e).
    destruct (Z.compare_spec (-49) e) as [He|He|He].
    + subst e. simpl.
      change (2 ^ 49) with 562949953421312.
      destruct (Pos.compare_spec 8444249301319680 m) as [Hm|Hm|Hm]; simpl.
      * subst m. split; [intros Habs; discriminate Habs|lia].
      * split; [intros _; lia|reflexivity].
      * split; [intros Habs; discriminate Habs|].
        intros Hlt. exfalso. apply Pos2Z.pos_lt_pos in Hm.
        change (2 ^ (- (-49))) with 562949953421312 in Hlt.
        clear -Hm Hlt. lia.
    + assert (d = 53) as Hd by lia. rewrite Hd in Hlo.
      change (2 ^ (53 - 1)) with 4503599627370496 in Hlo.
      split; [intros _|done].
      destruct (0 <=? e) eqn:E0.
      * apply Z.leb_le in E0.
        assert (1 ≤ 2 ^ e)
          by (apply Z.pow_le_mono_r with (b := 0) (a := 2) (c := e) in E0;
              simpl in *; lia).
        nia.
      * apply Z.leb_gt in E0.
        assert (2 ^ (- e) ≤ 2 ^ 48) by (apply Z.pow_le_mono_r; lia).
        change (2 ^ 48) with 281474976710656 in *. lia.
    + assert (d ≤ 53) as Hd by lia.
      assert (2 ^ d ≤ 2 ^ 53) by (apply Z.pow_le_mono_r; lia).
      change (2 ^ 53) with 9007199254740992 in *.
      split; [done|].
      destruct (0 <=? e) eqn:E0; [apply Z.leb_le in E0; lia|].
      assert (2 ^ 50 ≤ 2 ^ (- e)) by (apply Z.pow_le_mono_r; lia).
      change (2 ^ 50) with 1125899906842624 in *. lia.
Qed.

Lemma at_most_not_exceeds n (y : float) : at_most n y → ¬ exceeds n y.
Proof.
  destruct y as [s|s| |s m e]; simpl.
  - tauto.
  - destruct s; [tauto|discriminate].
  - tauto.
  - destruct s; [tauto|]. destruct (0 <=? e); lia.
Qed.

(** C5.  On every binary64 reading, [process_agent_data] labels a sample
    ["pit"] exactly when the reading it tests, the accelerometer's [y], is
    a number greater than 15 (the positive infinity included, a NaN not);
    it labels it ["straight"] whenever the reading is at most 15, the
    reading 15 included; it always yields one of the two labels, and hands
    the sample on unchanged. *)
Theorem process_agent_data_threshold (sample : AgentData) :
  binary64 (y (accelerometer sample)) →
  (road_state (process_agent_data sample) = "pit"
     ↔ exceeds 15 (y (accelerometer sample)))
  ∧ (at_most 15 (y (accelerometer sample))
     → road_state (process_agent_data sample) = "straight")
  ∧ (road_state (process_agent_data sample) = "pit"
     ∨ road_state (process_agent_data sample) = "straight")
  ∧ agent_data (process_agent_data sample) = sample.
Proof.
  intros Hvalid. pose proof (fgt_fifteen _ Hvalid) as Hgt.
  unfold process_agent_data; simpl.
  split; [|split; [|split]].
  - rewrite <- Hgt. destruct (fgt _ _); split; congruence.
  - intros Hle%at_most_not_exceeds. rewrite <- Hgt in Hle.
    by destruct (fgt _ _).
  - destruct (fgt _ _); auto.
  - reflexivity.
Qed.

(** The boundary and the next integer: a reading of exactly 15 is
    labelled ["straight"], a reading of 16 ["pit"]. *)
Lemma process_agent_data_threshold_witness :
  road_state (process_agent_data Samples.on_the_threshold) = "straight"
  ∧ road_state (process_agent_data Samples.over_the_threshold) = "pit".
Proof.
  split.
  - apply (process_agent_data_threshold Samples.on_the_threshold);
      [reflexivity|]. vm_compute. discriminate.
  - apply (process_agent_data_threshold Samples.over_the_threshold);
      [reflexivity|]. vm_compute. reflexivity.
Defined.

End ClassifierProperties.

(** ** The file datasource *)

Section DatasourceProperties.

Import Datasource DatasourceSpec.

Variable py_int : string → option Z.
Variable py_float : string → option float.
Variable USER_ID : Z.

Local Abbreviation read := (read py_int py_float USER_ID).
Local Abbreviation aggregate := (aggregate py_int py_float USER_ID).
Local Abbreviation sample_of := (sample_of py_int py_float USER_ID).
Local Abbreviation after_reads := (after_reads py_int py_float USER_ID).

Ltac run :=
  unfold next_row, open_reader, on_self, print, sys_exit, close_if_set,
    try_except, bind, get, modify, lift, ret, raise;
  simpl.

(** Building the sample touches nothing. *)
Lemma aggregate_state now a g k p : (aggregate now a g k p).2 = p.
Proof.
  unfold Datasource.aggregate. run.
  repeat (match goal with
          | |- context [match ?r with Return _ => _ | Raise _ => _ end] =>
              destruct r; simpl; try reflexivity
          end).
Qed.

Lemma aggregate_sample now a g k d p :
  sample_of now a g k d → aggregate now a g k p = (Return d, p).
Proof.
  intros (ax & ay & az & g0 & g1 & k0 & k1 & k2
          & H1 & H2 & H3 & H4 & H5 & H6 & H7 & H8 & ->).
  unfold Datasource.aggregate. run.
  by rewrite H1, H2, H3, H4, H5, H6, H7, H8.
Qed.

(** C8, as the code has it.  On a datasource whose three readers are
    open: when each reader has a row left and the three rows are well
    formed, [read] takes one row from each reader and returns the one
    sample that the three rows spell out; when a reader has no row left,
    [read] returns nothing: it raises [SystemExit], the outcome of
    [sys.exit()], in place of the [StopIteration] of the reader. *)
Theorem read_yields_sample_or_end_of_stream now p ra rg rk
    (Ha : accelerometer_data (self p) = Some ra)
    (Hg : gps_data (self p) = Some rg)
    (Hk : parking_data (self p) = Some rk) :
  (∀ a g k ra' rg' rk' d,
      pending ra = a :: ra' → pending rg = g :: rg' → pending rk = k :: rk' →
      sample_of now a g k d →
      read now p = (Return d, with_readers ra' rg' rk' p))
  ∧ (pending ra = [] ∨ pending rg = [] ∨ pending rk = [] →
     (read now p).1 = Raise SystemExit).
Proof.
  split.
  - intros a g k ra' rg' rk' d Ea Eg Ek Hd.
    unfold Datasource.read. run.
    rewrite Ha, Ea. simpl. rewrite Hg, Eg. simpl. rewrite Hk, Ek. simpl.
    by rewrite (aggregate_sample _ _ _ _ _ _ Hd).
  - intros Hend.
    unfold Datasource.read. run. rewrite Ha.
    destruct (pending ra) as [|a ra'] eqn:Ea; [done|]. simpl. rewrite Hg.
    destruct (pending rg) as [|g rg'] eqn:Eg; [done|]. simpl. rewrite Hk.
    destruct (pending rk) as [|k rk'] eqn:Ek; [done|].
    destruct Hend as [?|[?|?]]; discriminate.
Qed.

Lemma stopReading_outcome p :
  (stopReading p).1 =
    match accelerometer_data (self p), gps_data (self p), parking_data (self p) with
    | None, None, None => Return tt
    | _, _, _ => Raise (AttributeError "close")
    end.
Proof.
  unfold stopReading. run.
  destruct (accelerometer_data _); simpl; [done|].
  destruct (gps_data _); simpl; [done|].
  by destruct (parking_data _).
Qed.

Lemma startReading_opens p p' :
  startReading p = (Return tt, p') → is_Some (accelerometer_data (self p')).
Proof.
  unfold startReading. run.
  destruct (files p !! accelerometer_filename (self p)) as [[|ha ra]|];
    simpl; [done| |done].
  destruct (files p !! gps_filename (self p)) as [[|hg rg]|];
    simpl; [done| |done].
  destruct (files p !! parking_filename (self p)) as [[|hk rk]|];
    simpl; [done| |done].
  intros ?. simplify_eq/=. eauto.
Qed.

(** A reader, once stored, is never taken out of its field by [read]. *)
Lemma read_keeps_reader now p :
  is_Some (accelerometer_data (self p)) →
  is_Some (accelerometer_data (self (read now p).2)).
Proof.
  intros [ra Ha]. unfold Datasource.read.
  unfold bind at 1.
  match goal with
  | |- context [try_except ?b ?c ?h p] =>
      assert (is_Some (accelerometer_data (self (try_except b c h p).2))) as Hrows;
      [|destruct (try_except b c h p) as [[[[a g] k]|e] p1]; simpl in *;
        [by rewrite aggregate_state|done]]
  end.
  run. rewrite Ha.
  destruct (pending ra) as [|a ra']; simpl; [eauto|].
  destruct (gps_data (self p)) as [rg|]; simpl; [|eauto].
  destruct (pending rg) as [|g rg']; simpl; [eauto|].
  destruct (parking_data (self p)) as [rk|]; simpl; [|eauto].
  destruct (pending rk) as [|k rk']; simpl; eauto.
Qed.

Lemma after_reads_keeps_reader clock p :
  is_Some (accelerometer_data (self p)) →
  is_Some (accelerometer_data (self (after_reads clock p))).
Proof.
  revert p. induction clock as [|now clock IH]; intros p Hp; simpl; [done|].
  by apply IH, read_keeps_reader.
Qed.

(** C9.  Once [startReading] has succeeded, [stopReading] raises
    [AttributeError] for the missing [close] of the reader, also after any
    number of calls of [read]; and [stopReading] returns normally exactly
    when none of the three data fields holds a reader. *)
Theorem stopReading_raises_once_started p :
  (∀ p0 clock, startReading p0 = (Return tt, p) →
     (stopReading (after_reads clock p)).1 = Raise (AttributeError "close"))
  ∧ ((stopReading p).1 = Return tt ↔ never_started p).
Proof.
  split.
  - intros p0 clock Hstart.
    destruct (after_reads_keeps_reader clock p (startReading_opens _ _ Hstart))
      as [ra Ha].
    by rewrite stopReading_outcome, Ha.
  - rewrite stopReading_outcome. unfold never_started.
    destruct (accelerometer_data _), (gps_data _), (parking_data _);
      split; try discriminate; try done; intros (? & ? & ?); discriminate.
Qed.

End DatasourceProperties.

(** The sample files: the first [read] gives the sample of the first data
    rows, the second finds the readers empty. *)
Lemma read_yields_sample_or_end_of_stream_witness :
  (Datasource.read Samples.int_of Samples.float_of 1 Samples.new_year
     Samples.started_process).1
  = Return (Datasource.mkAggregatedData (Datasource.mkAccelerometer 1 2 16500)
              (Datasource.mkGps Samples.f10 Samples.f20)
              (Datasource.mkParking 3 (Datasource.mkGps Samples.f10 Samples.f20))
              Samples.new_year 1)
  ∧ (Datasource.read Samples.int_of Samples.float_of 1 Samples.new_year
       Samples.drained_process).1 = Raise SystemExit.
Proof.
  split.
  - erewrite (proj1 (read_yields_sample_or_end_of_stream
                       Samples.int_of Samples.float_of 1 Samples.new_year
                       Samples.started_process _ _ _ eq_refl eq_refl eq_refl));
      [reflexivity|reflexivity|reflexivity|reflexivity|].
    repeat eexists; reflexivity.
  - apply (proj2 (read_yields_sample_or_end_of_stream
                    Samples.int_of Samples.float_of 1 Samples.new_year
                    Samples.drained_process _ _ _ eq_refl eq_refl eq_refl)).
    left. reflexivity.
Defined.

(** C8, as the spec has it, fails: on the sample files, the second [read]
    finds the readers empty and hands its caller no outcome; it raises. *)
Lemma read_exits_at_end_of_stream :
  ¬ DatasourceSpec.signals_outcome Samples.int_of Samples.float_of 1
      Samples.new_year Samples.drained_process.
Proof.
  unfold DatasourceSpec.signals_outcome. intros Hreturns.
  vm_compute in Hreturns. discriminate.
Qed.

(** The sample files: started, read once, then stopped. *)
Lemma stopReading_raises_once_started_witness :
  Datasource.startReading Samples.fresh_process = (Return tt, Samples.started_process)
  ∧ (Datasource.stopReading Samples.drained_process).1
    = Raise (AttributeError "close").
Proof.
  split; [reflexivity|].
  apply (proj1 (stopReading_raises_once_started Samples.int_of Samples.float_of 1
                  Samples.started_process)
           Samples.fresh_process [Samples.new_year]).
  reflexivity.
Defined.

(** ** The JSON text of a string *)

Section JsonProperties.

Import Json.

Lemma append_String c (a b : string) :
  (String c a ++ b)%string = String c (a ++ b)%string.
Proof. reflexivity. Qed.

Lemma append_assoc (a b c : string) :
  ((a ++ b) ++ c)%string = (a ++ (b ++ c))%string.
Proof.
  induction a as [|x a IH]; [reflexivity|].
  by rewrite !append_String, IH.
Qed.

Lemma length_append (a b : string) :
  String.length (a ++ b)%string = (String.length a + String.length b)%nat.
Proof.
  induction a as [|x a IH]; [reflexivity|].
  rewrite append_String. simpl. by rewrite IH.
Qed.

(** Reading back the replacement of one character gives the character. *)
Lemma scanstring_escape_char ensure_ascii c rest :
  scanstring (escape_char ensure_ascii c ++ rest)
  = cons_char (Some c) (scanstring rest).
Proof.
  destruct ensure_ascii; destruct c as [[] [] [] [] [] [] [] []]; reflexivity.
Qed.

Lemma scanstring_escape ensure_ascii s :
  scanstring (escape ensure_ascii s ++ String quote EmptyString) = Some s.
Proof.
  induction s as [|c s IH]; [reflexivity|].
  cbn [escape]. by rewrite append_assoc, scanstring_escape_char, IH.
Qed.

(** Decoding an encoded string gives the string back. *)
Lemma loads_encode_basestring ensure_ascii s :
  loads_str (encode_basestring ensure_ascii s) = Some s.
Proof. unfold encode_basestring. simpl. apply scanstring_escape. Qed.

Lemma escape_char_length ensure_ascii c :
  (1 ≤ String.length (escape_char ensure_ascii c))%nat.
Proof.
  destruct ensure_ascii; destruct c as [[] [] [] [] [] [] [] []];
    vm_compute; lia.
Qed.

Lemma escape_length ensure_ascii s :
  (String.length s ≤ String.length (escape ensure_ascii s))%nat.
Proof.
  induction s as [|c s IH]; [done|].
  cbn [escape]. rewrite length_append. simpl.
  pose proof (escape_char_length ensure_ascii c). lia.
Qed.

(** The encoding of a string is never the string itself. *)
Lemma encode_basestring_neq ensure_ascii s :
  encode_basestring ensure_ascii s ≠ s.
Proof.
  intros Heq. apply (f_equal String.length) in Heq.
  unfold encode_basestring in Heq. simpl in Heq.
  rewrite length_append in Heq. simpl in Heq.
  pose proof (escape_length ensure_ascii s). lia.
Qed.

End JsonProperties.

(** ** The handlers and the object that [get_db] makes *)

Section HandlerProperties.

Import Api ApiSpec StoreSpec.

Variable execute : statement → M World (list Row).
Variable commit : M World unit.
Variable query_all : M World (list Row).
Variable close : M World unit.

Local Abbreviation get_db := (get_db close).
Local Abbreviation create_processed_agent_data :=
  (create_processed_agent_data execute commit close).
Local Abbreviation read_processed_agent_data :=
  (read_processed_agent_data execute close).
Local Abbreviation list_processed_agent_data :=
  (list_processed_agent_data query_all close).
Local Abbreviation update_processed_agent_data :=
  (update_processed_agent_data execute commit close).
Local Abbreviation delete_processed_agent_data :=
  (delete_processed_agent_data execute commit close).
Local Abbreviation handle := (handle execute commit query_all close).

(** The sessionmaker has no [close]: the [finally] of [get_db] raises, and
    that is what [get_db] gives its caller in place of [db]. *)
Lemma get_db_raises w : get_db w = (Raise (AttributeError "close"), w).
Proof. reflexivity. Qed.

(** Whatever follows [db = get_db()] in a handler does not run. *)
Lemma after_get_db {A} (rest : M World A) w :
  Py.bind get_db (λ _, rest) w = (Raise (AttributeError "close"), w).
Proof. unfold Py.bind. by rewrite get_db_raises. Qed.

Lemma create_run data w :
  create_processed_agent_data data w = (Raise (AttributeError "close"), w).
Proof. apply after_get_db. Qed.

Lemma read_run n w :
  read_processed_agent_data n w = (Raise (AttributeError "close"), w).
Proof. apply after_get_db. Qed.

Lemma list_run w :
  list_processed_agent_data w = (Raise (AttributeError "close"), w).
Proof. apply after_get_db. Qed.

Lemma update_run n data w :
  update_processed_agent_data n data w = (Raise (AttributeError "close"), w).
Proof. apply after_get_db. Qed.

Lemma delete_run n w :
  delete_processed_agent_data n w = (Raise (AttributeError "close"), w).
Proof. apply after_get_db. Qed.


(** C3.  For every id, in the table or not, each of the read, update and
    delete handlers ends in the [AttributeError] of [get_db]: the caller is
    answered 500, a server error and no client error, whichever rows pass
    the response model; the [HTTPException] 400 of the delete handler is
    not what is raised. *)
Theorem absent_id_outcomes n data fits w :
  (read_processed_agent_data n w).1 = Raise (AttributeError "close")
  ∧ (update_processed_agent_data n data w).1 = Raise (AttributeError "close")
  ∧ (delete_processed_agent_data n w).1 = Raise (AttributeError "close")
  ∧ status_code (one_stored_record fits) (read_processed_agent_data n w).1 = 500
  ∧ status_code (one_stored_record fits) (update_processed_agent_data n data w).1 = 500
  ∧ status_code (one_stored_record fits) (delete_processed_agent_data n w).1 = 500
  ∧ server_error 500 = true
  ∧ client_error 500 = false.
Proof. rewrite read_run, update_run, delete_run. repeat split. Qed.

(** C4.  When [create_processed_agent_data] fails, the world behind it is
    what it was: the table holds the rows of before and none of the batch,
    and a listing afterwards gives what a listing before gave. *)
Theorem failed_batch_leaves_store_unchanged data w e w' :
  create_processed_agent_data data w = (Raise e, w') →
  table w' = table w
  ∧ (list_processed_agent_data w').1 = (list_processed_agent_data w).1
  ∧ w' = w.
Proof. rewrite create_run. intros ?. by simplify_eq. Qed.

(** C7.  No record makes the round trip: storing a batch ends in the
    [AttributeError] of [get_db] with the table unchanged, and so does
    reading any id afterwards, which yields no row. *)
Theorem stored_record_is_not_read_back data n w :
  let out := create_processed_agent_data data w in
  out.1 = Raise (AttributeError "close")
  ∧ table out.2 = table w
  ∧ (read_processed_agent_data n out.2).1 = Raise (AttributeError "close")
  ∧ ∀ row, (read_processed_agent_data n out.2).1 ≠ Return (Some row).
Proof.
  cbv zeta. rewrite !create_run, !read_run. simpl. repeat split. done.
Qed.

(** X1.  Each of the five CRUDL handlers ends in the [AttributeError]
    that [get_db] raises outside the handler's [try]: none returns, none
    raises its own [HTTPException], and the world is left as it was. *)
Theorem handlers_raise_attribute_error q w :
  handle q w = (Raise (AttributeError "close"), w).
Proof.
  destruct q as [data|n| |n data|n]; unfold StoreSpec.handle, outcome.
  - by rewrite create_run.
  - by rewrite read_run.
  - by rewrite list_run.
  - by rewrite update_run.
  - by rewrite delete_run.
Qed.

End HandlerProperties.

(** A batch of two records over an empty table. *)
Lemma failed_batch_leaves_store_unchanged_witness :
  Api.table
    (Api.create_processed_agent_data Samples.execute_nothing Samples.do_nothing
       Samples.do_nothing [Samples.item; Samples.pit] Samples.empty_world).2
  = [].
Proof.
  apply (failed_batch_leaves_store_unchanged Samples.execute_nothing
           Samples.do_nothing Samples.query_nothing Samples.do_nothing
           [Samples.item; Samples.pit] Samples.empty_world
           (AttributeError "close")
           (Api.create_processed_agent_data Samples.execute_nothing
              Samples.do_nothing Samples.do_nothing
              [Samples.item; Samples.pit] Samples.empty_world).2).
  reflexivity.
Defined.

(** ** The broadcast *)

Section BroadcastProperties.

Import Api ApiSpec.

Variable ensure_ascii : bool.
Variable Payload : Type.
Variable json_dumps : Payload → result string.

Local Abbreviation send_data_to_subscribers :=
  (send_data_to_subscribers ensure_ascii Payload json_dumps).
Local Abbreviation send_json := (send_json ensure_ascii).
Local Abbreviation frame_of := (frame_of ensure_ascii).

Lemma reached_all_sound fails l :
  (∀ s, s ∈ l → fails s = false) → reached fails l = l ∧ all_sound fails l = true.
Proof.
  induction l as [|s l IH]; intros Hl; [done|].
  simpl. rewrite (Hl s) by left. simpl.
  destruct IH as [-> ->]; [|done].
  intros s' ?. apply Hl. by right.
Qed.

Lemma for_each_cons {A} (a : A) l body w :
  for_each (a :: l) body w
  = match body a w with
    | (Return _, w1) => for_each l body w1
    | (Raise e, w1) => (Raise e, w1)
    end.
Proof. reflexivity. Qed.

Lemma send_one data text s w :
  json_dumps data = Return text →
  Py.bind (lift (json_dumps data)) (λ t, send_json s t) w
  = if send_fails w s then (Raise WebSocketError, w)
    else (Return tt, log_sent (s, frame_of text) w).
Proof.
  intros Hdumps. unfold lift, send_json, get, modify, raise, Py.bind.
  rewrite Hdumps. by destruct (send_fails w s).
Qed.

Lemma send_loop data text l w :
  json_dumps data = Return text →
  let out :=
    for_each l (λ websocket,
                Py.bind (lift (json_dumps data)) (λ t, send_json websocket t)) w in
  out.1 = (if all_sound (send_fails w) l then Return tt else Raise WebSocketError)
  ∧ sent out.2 = sent w ++ ((λ s, (s, frame_of text)) <$> reached (send_fails w) l)
  ∧ subscriptions out.2 = subscriptions w
  ∧ send_fails out.2 = send_fails w.
Proof.
  intros Hdumps. revert w. induction l as [|s l IH]; intros w; cbv zeta.
  - simpl. by rewrite app_nil_r.
  - rewrite for_each_cons. cbv beta.
    rewrite (send_one data text s w Hdumps).
    cbn [reached all_sound forallb].
    destruct (send_fails w s) eqn:Hs; cbn [negb andb fst snd].
    + simpl. by rewrite app_nil_r.
    + destruct (IH (log_sent (s, frame_of text) w))
        as (Hr & Hsent & Hsubs & Hfails).
      rewrite Hr, Hsent, Hsubs, Hfails. simpl.
      by rewrite <- app_assoc.
Qed.

Lemma send_data_to_subscribers_loop data w :
  send_data_to_subscribers data w
  = for_each (subscriptions w)
      (λ websocket,
       Py.bind (lift (json_dumps data)) (λ t, send_json websocket t)) w.
Proof. reflexivity. Qed.

Lemma broadcast_run data text w :
  json_dumps data = Return text →
  (send_data_to_subscribers data w).1
  = (if all_sound (send_fails w) (subscriptions w) then Return tt
     else Raise WebSocketError)
  ∧ new_frames w (send_data_to_subscribers data w).2
    = (λ s, (s, frame_of text)) <$> reached (send_fails w) (subscriptions w)
  ∧ subscriptions (send_data_to_subscribers data w).2 = subscriptions w.
Proof.
  intros Hdumps. rewrite send_data_to_subscribers_loop.
  destruct (send_loop data text (subscriptions w) w Hdumps)
    as (Hr & Hsent & Hsubs & _).
  repeat split; try done.
  unfold new_frames. by rewrite Hsent, drop_app_length.
Qed.

(** C2, as the code has it.  A broadcast that runs from its first to its
    last iteration with every send ending and with no other task changing
    the registry in between goes through the subscribers in the order of
    the loop and stops at the first one whose send raises: that error
    reaches the caller of the broadcast, the subscribers before it have the
    payload once each, those after it have nothing, and the registry is
    what it was.  When no send raises, such a broadcast returns and every
    registered subscriber has the payload once. *)
Theorem broadcast_stops_at_first_failure data text w :
  json_dumps data = Return text →
  let out := send_data_to_subscribers data w in
  subscriptions out.2 = subscriptions w
  ∧ new_frames w out.2
    = (λ s, (s, frame_of text)) <$> reached (send_fails w) (subscriptions w)
  ∧ out.1 = (if all_sound (send_fails w) (subscriptions w) then Return tt
             else Raise WebSocketError)
  ∧ ((∀ s, s ∈ subscriptions w → send_fails w s = false) →
     out.1 = Return tt
     ∧ new_frames w out.2 = (λ s, (s, frame_of text)) <$> subscriptions w).
Proof.
  intros Hdumps. simpl.
  destruct (broadcast_run data text w Hdumps) as (Hr & Hframes & Hsubs).
  split; [done|]. split; [done|]. split; [done|].
  intros Hsound. rewrite Hr, Hframes.
  by destruct (reached_all_sound _ _ Hsound) as [-> ->].
Qed.

(** C10.  Every frame that a broadcast of [data] sends is the JSON text of
    a string, and that string is [json.dumps(data)]: a subscriber that
    decodes its frame gets the JSON text of the payload, not the payload;
    and when no send raises, every registered subscriber gets that frame. *)
Theorem subscribers_receive_doubly_encoded_json data text w :
  json_dumps data = Return text →
  let out := send_data_to_subscribers data w in
  (∀ s frame, (s, frame) ∈ new_frames w out.2 →
     s ∈ subscriptions w
     ∧ frame = Json.encode_basestring ensure_ascii text
     ∧ Json.loads_str frame = Some text
     ∧ frame ≠ text)
  ∧ ((∀ s, s ∈ subscriptions w → send_fails w s = false) →
     ∀ s, s ∈ subscriptions w →
          (s, Json.encode_basestring ensure_ascii text) ∈ new_frames w out.2).
Proof.
  intros Hdumps. simpl.
  destruct (broadcast_run data text w Hdumps) as (_ & Hframes & _).
  rewrite Hframes. split.
  - intros s frame (s' & [= -> ->] & Hs')%list_elem_of_fmap.
    repeat split.
    + clear Hframes. induction (subscriptions w) as [|s0 l IH]; simpl in *.
      * by apply elem_of_nil in Hs'.
      * destruct (send_fails w s0); [by apply elem_of_nil in Hs'|].
        apply elem_of_cons in Hs' as [->|Hs']; [left|right; auto].
    + apply loads_encode_basestring.
    + apply encode_basestring_neq.
  - intros Hsound s Hs.
    destruct (reached_all_sound _ _ Hsound) as [-> _].
    apply list_elem_of_fmap. by exists s.
Qed.

End BroadcastProperties.

(** C2, as the spec has it, fails: with two subscribers of which the first
    cannot be sent to, the broadcast does not survive the failure. *)
Lemma broadcast_does_not_survive_failure :
  ¬ ApiSpec.survives_failures false string Samples.dumps_text Samples.pit_text
      Samples.first_subscriber_broken.
Proof.
  intros [Hreturns _]. vm_compute in Hreturns. discriminate.
Qed.

(** What the failing first subscriber does to the second. *)
Lemma broadcast_stops_at_first_failure_witness :
  (Api.send_data_to_subscribers false string Samples.dumps_text Samples.pit_text
     Samples.first_subscriber_broken).1 = Raise WebSocketError
  ∧ ApiSpec.new_frames Samples.first_subscriber_broken
      (Api.send_data_to_subscribers false string Samples.dumps_text Samples.pit_text
         Samples.first_subscriber_broken).2 = []
  ∧ Api.subscriptions
      (Api.send_data_to_subscribers false string Samples.dumps_text Samples.pit_text
         Samples.first_subscriber_broken).2 = [1%nat; 2%nat].
Proof.
  destruct (broadcast_stops_at_first_failure false string Samples.dumps_text
              Samples.pit_text Samples.pit_text
              Samples.first_subscriber_broken eq_refl)
    as (Hsubs & Hframes & Hr & _).
  split; [exact Hr|]. split; [exact Hframes|exact Hsubs].
Defined.

(** Two sound subscribers: each gets the text of the payload, quoted. *)
Lemma subscribers_receive_doubly_encoded_json_witness :
  (2%nat, Json.encode_basestring false Samples.pit_text)
  ∈ ApiSpec.new_frames Samples.two_subscribers
      (Api.send_data_to_subscribers false string Samples.dumps_text Samples.pit_text
         Samples.two_subscribers).2.
Proof.
  apply (proj2 (subscribers_receive_doubly_encoded_json false string
                  Samples.dumps_text Samples.pit_text Samples.pit_text
                  Samples.two_subscribers eq_refl)).
  - intros s _. reflexivity.
  - right. left.
Defined.

(** ** The request boundary *)

Section BoundaryProperties.

Import Api ApiSpec.

Variable fromisoformat : string → option datetime.
Variable datetime_field : raw_timestamp → option datetime.
Variable execute : statement → M World (list Row).
Variable commit : M World unit.
Variable close : M World unit.

Local Abbreviation check_timestamp := (check_timestamp fromisoformat).
Local Abbreviation AgentData_namespace := (AgentData_namespace fromisoformat).
Local Abbreviation validate_timestamp :=
  (validate_timestamp fromisoformat datetime_field).
Local Abbreviation validate := (validate fromisoformat datetime_field).
Local Abbreviation validate_all := (validate_all fromisoformat datetime_field).
Local Abbreviation post_processed_agent_data :=
  (post_processed_agent_data fromisoformat datetime_field execute commit close).

(** No validator is registered for the timestamp: the class body holds
    the proxy inside a [classmethod] object. *)
Lemma nothing_registered : registered AgentData_namespace "timestamp" "before" = [].
Proof. reflexivity. Qed.

(** So the parser of the field decides alone. *)
Lemma validate_timestamp_run value :
  validate_timestamp value
  = match datetime_field value with
    | Some d => Return d
    | None => Raise ValueError
    end.
Proof. reflexivity. Qed.

Lemma validate_all_accepts body :
  (∀ item, item ∈ body →
           is_Some (datetime_field (timestamp_in (agent_data_in item)))) →
  returns (validate_all body) = true.
Proof.
  induction body as [|head body IH]; intros Hall; [done|].
  simpl. unfold Api.validate. rewrite validate_timestamp_run.
  destruct (Hall head) as [d ->]; [left|].
  destruct (Api.validate_all _ _ body); [done|].
  apply IH. intros item ?. apply Hall. by right.
Qed.

Lemma post_run body w :
  post_processed_agent_data body w
  = (Return (if returns (validate_all body) then 500 else 422), w).
Proof.
  unfold Api.post_processed_agent_data.
  destruct (Api.validate_all _ _ body) as [data|e]; [|done].
  by rewrite create_run.
Qed.

(** C6.  A request with a record whose timestamp is a number, which
    [check_timestamp] refuses as it refuses everything that is neither a
    [datetime] nor a string that [fromisoformat] parses, is not rejected at
    the boundary when the parser of the field takes the timestamps of the
    body: [check_timestamp] is not among the registered validators, the
    records are built, the handler is called, and the answer is its 500,
    which is no client error. *)
Theorem timestamp_validator_is_not_applied body item n w :
  item ∈ body →
  timestamp_in (agent_data_in item) = RawNumber n →
  (∀ item', item' ∈ body →
            is_Some (datetime_field (timestamp_in (agent_data_in item')))) →
  check_timestamp (timestamp_in (agent_data_in item)) = Raise ValueError
  ∧ registered AgentData_namespace "timestamp" "before" = []
  ∧ returns (validate_all body) = true
  ∧ post_processed_agent_data body w = (Return 500, w)
  ∧ client_error 500 = false.
Proof.
  intros _ Hn Hall. rewrite Hn, post_run, (validate_all_accepts body Hall).
  repeat split.
Qed.


End BoundaryProperties.

(** A request whose second record carries the number 1704067200. *)
Lemma timestamp_validator_is_not_applied_witness :
  Api.check_timestamp Samples.parse_new_year (Api.RawNumber 1704067200)
  = Raise ValueError
  ∧ (Api.post_processed_agent_data Samples.parse_new_year Samples.datetime_field
       Samples.execute_nothing Samples.do_nothing Samples.do_nothing
       [Samples.good_request; Samples.numeric_request] Samples.empty_world).1
    = Return 500.
Proof.
  destruct (timestamp_validator_is_not_applied Samples.parse_new_year
              Samples.datetime_field Samples.execute_nothing Samples.do_nothing
              Samples.do_nothing
              [Samples.good_request; Samples.numeric_request]
              Samples.numeric_request 1704067200 Samples.empty_world
              ltac:(right; left) eq_refl)
    as (Hcheck & _ & _ & Hpost & _).
  - intros item' [->|[->|Hin]%elem_of_cons]%elem_of_cons.
    + by eexists.
    + by eexists.
    + by apply elem_of_nil in Hin.
  - split; [exact Hcheck|]. by rewrite Hpost.
Defined.

(** * Further properties *)

(** ** More on the broadcast and the registry *)

Section RegistryProperties.

Import Api ApiSpec.

Variable ensure_ascii : bool.
Variable Payload : Type.
Variable json_dumps : Payload → result string.

Local Abbreviation send_data_to_subscribers :=
  (send_data_to_subscribers ensure_ascii Payload json_dumps).
Local Abbreviation frame_of := (frame_of ensure_ascii).

(** X9.  [json.dumps] runs inside the loop.  With no subscriber it does not
    run at all: the broadcast returns and changes nothing, whatever the
    payload.  With a subscriber, a payload that [json.dumps] refuses makes
    the broadcast raise that error before any frame is sent. *)
Theorem payload_is_encoded_per_subscriber data w :
  (subscriptions w = [] → send_data_to_subscribers data w = (Return tt, w))
  ∧ (∀ e, json_dumps data = Raise e → subscriptions w ≠ [] →
          send_data_to_subscribers data w = (Raise e, w)).
Proof.
  split.
  - intros Hnone. rewrite send_data_to_subscribers_loop, Hnone. reflexivity.
  - intros e He Hsome. rewrite send_data_to_subscribers_loop.
    destruct (subscriptions w) as [|s l]; [done|].
    rewrite for_each_cons. cbv beta.
    unfold Py.bind at 1, lift. by rewrite He.
Qed.

Lemma send_one_any data s w :
  Py.bind (lift (json_dumps data)) (λ t, send_json ensure_ascii s t) w
  = match json_dumps data with
    | Return text =>
        if send_fails w s then (Raise WebSocketError, w)
        else (Return tt, log_sent (s, Json.encode_basestring ensure_ascii text) w)
    | Raise e => (Raise e, w)
    end.
Proof.
  unfold lift, send_json, get, modify, raise, Py.bind.
  destruct (json_dumps data); [|done]. by destruct (send_fails w s).
Qed.

Lemma for_each_send_store data l w :
  let out :=
    for_each l (λ websocket,
                Py.bind (lift (json_dumps data))
                  (λ t, send_json ensure_ascii websocket t)) w in
  table out.2 = table w ∧ id_seq out.2 = id_seq w ∧ session out.2 = session w
  ∧ subscriptions out.2 = subscriptions w.
Proof.
  cbv zeta. revert w. induction l as [|s l IH]; intros w; [done|].
  rewrite for_each_cons. cbv beta. rewrite send_one_any.
  destruct (json_dumps data) as [text|e] eqn:Hd; [|done].
  destruct (send_fails w s); [done|].
  destruct (IH (log_sent (s, Json.encode_basestring ensure_ascii text) w))
    as (-> & -> & -> & ->).
  done.
Qed.

(** X10.  However a broadcast ends, it leaves the store alone: the table,
    the sequence, the session and the registry are what they were. *)
Theorem broadcast_leaves_store_alone data w :
  table (send_data_to_subscribers data w).2 = table w
  ∧ id_seq (send_data_to_subscribers data w).2 = id_seq w
  ∧ session (send_data_to_subscribers data w).2 = session w
  ∧ subscriptions (send_data_to_subscribers data w).2 = subscriptions w.
Proof.
  rewrite send_data_to_subscribers_loop.
  destruct (for_each_send_store data (subscriptions w) w) as (? & ? & ? & ?).
  done.
Qed.

(** X11.  Two broadcasts one after the other, each run undisturbed from
    its first to its last iteration and with no send raising: every
    subscriber has the frame of the first payload before the frame of the
    second; the log is the frames of the first broadcast followed by those
    of the second. *)
Theorem broadcasts_arrive_in_call_order data1 text1 data2 text2 w :
  json_dumps data1 = Return text1 →
  json_dumps data2 = Return text2 →
  (∀ s, s ∈ subscriptions w → send_fails w s = false) →
  let w1 := (send_data_to_subscribers data1 w).2 in
  (send_data_to_subscribers data2 w1).1 = Return tt
  ∧ sent (send_data_to_subscribers data2 w1).2
    = sent w ++ ((λ s, (s, frame_of text1)) <$> subscriptions w)
             ++ ((λ s, (s, frame_of text2)) <$> subscriptions w).
Proof.
  intros H1 H2 Hsound. cbv zeta.
  rewrite !send_data_to_subscribers_loop.
  destruct (send_loop ensure_ascii Payload json_dumps data1 text1
              (subscriptions w) w H1) as (_ & Hsent1 & Hsubs1 & Hfails1).
  destruct (reached_all_sound _ _ Hsound) as [Hreach Hall].
  rewrite Hreach in Hsent1. rewrite Hsubs1.
  destruct (send_loop ensure_ascii Payload json_dumps data2 text2
              (subscriptions w)
              (for_each (subscriptions w)
                 (λ websocket,
                  Py.bind (lift (json_dumps data1))
                    (λ t, send_json ensure_ascii websocket t)) w).2 H2)
    as (Hr2 & Hsent2 & _).
  rewrite Hfails1 in Hr2, Hsent2. rewrite Hreach in Hsent2. rewrite Hall in Hr2.
  split; [exact Hr2|]. by rewrite Hsent2, Hsent1, <- app_assoc.
Qed.

Lemma not_reached fails l s : s ∉ l → s ∉ reached fails l.
Proof.
  induction l as [|s0 l IH]; simpl; [done|].
  intros Hs. destruct (fails s0); [apply not_elem_of_nil|].
  apply not_elem_of_cons in Hs as [? ?].
  apply not_elem_of_cons. split; [done|by apply IH].
Qed.

(** X12.  A subscriber that has disconnected is out of the registry, the
    others keep their places, and a broadcast that follows sends it no
    frame. *)
Theorem disconnected_subscriber_gets_nothing websocket data text w :
  websocket ∈ subscriptions w →
  json_dumps data = Return text →
  let w' := (websocket_disconnect websocket w).2 in
  (websocket_disconnect websocket w).1 = Return tt
  ∧ subscriptions w'
    = List.filter (λ s, negb (bool_decide (s = websocket))) (subscriptions w)
  ∧ (websocket ∉ subscriptions w')
  ∧ (∀ frame,
       (websocket, frame) ∉ new_frames w' (send_data_to_subscribers data w').2).
Proof.
  intros Hin Hdumps. cbv zeta.
  assert (websocket_disconnect websocket w
          = (Return tt,
             set_subscriptions
               (List.filter (λ s, negb (bool_decide (s = websocket)))
                  (subscriptions w)) w)) as ->.
  { unfold websocket_disconnect, Py.bind, get, modify.
    by rewrite bool_decide_eq_true_2. }
  cbn [fst snd].
  set (w' := set_subscriptions _ w).
  assert (websocket ∉ subscriptions w') as Hout.
  { subst w'. simpl. intros [_ Hne]%list_elem_of_In%filter_In.
    by rewrite bool_decide_eq_true_2 in Hne. }
  split; [done|]. split; [done|]. split; [done|].
  intros frame.
  destruct (broadcast_run ensure_ascii Payload json_dumps data text w' Hdumps)
    as (_ & -> & _).
  intros (s & [= <- _] & Hs)%list_elem_of_fmap.
  by apply (not_reached _ _ _ Hout) in Hs.
Qed.

End RegistryProperties.

(** A payload that cannot be written as JSON, sent to two subscribers. *)
Lemma payload_is_encoded_per_subscriber_witness :
  Api.send_data_to_subscribers false unit (λ _, Raise TypeError) tt
    Samples.two_subscribers
  = (Raise TypeError, Samples.two_subscribers)
  ∧ Api.send_data_to_subscribers false unit (λ _, Raise TypeError) tt
      Samples.empty_world
    = (Return tt, Samples.empty_world).
Proof.
  split.
  - apply (proj2 (payload_is_encoded_per_subscriber false unit
                    (λ _, Raise TypeError) tt Samples.two_subscribers)
             TypeError eq_refl).
    discriminate.
  - apply (proj1 (payload_is_encoded_per_subscriber false unit
                    (λ _, Raise TypeError) tt Samples.empty_world)).
    reflexivity.
Defined.

Lemma broadcasts_arrive_in_call_order_witness :
  Api.sent
    (Api.send_data_to_subscribers false string Samples.dumps_text "2"
       (Api.send_data_to_subscribers false string Samples.dumps_text "1"
          Samples.two_subscribers).2).2
  = [(1%nat, Json.encode_basestring false "1");
     (2%nat, Json.encode_basestring false "1");
     (1%nat, Json.encode_basestring false "2");
     (2%nat, Json.encode_basestring false "2")].
Proof.
  rewrite (proj2 (broadcasts_arrive_in_call_order false string Samples.dumps_text
                    "1" "1" "2" "2" Samples.two_subscribers eq_refl eq_refl
                    (λ _ _, eq_refl))).
  reflexivity.
Defined.

Lemma disconnected_subscriber_gets_nothing_witness :
  Api.subscriptions (Api.websocket_disconnect 1%nat Samples.two_subscribers).2
  = [2%nat].
Proof.
  rewrite (proj1 (proj2 (disconnected_subscriber_gets_nothing false string
                           Samples.dumps_text 1%nat "1" "1"
                           Samples.two_subscribers
                           ltac:(left) eq_refl))).
  reflexivity.
Defined.

(** ** More on the file datasource *)

Section StartReadingProperties.

Import Datasource DatasourceSpec FilesSpec.

Ltac run :=
  unfold next_row, open_reader, on_self, print, sys_exit, close_if_set,
    try_except, Py.bind, get, modify, lift, ret, raise;
  simpl.

(** X14.  [startReading] succeeds exactly when each of the three files is on
    disk and has a first line; it then leaves the three readers just past
    that line, so that the header is never read as data. *)
Theorem startReading_skips_headers p :
  (∀ ra rg rk, files_ready p ra rg rk →
               startReading p = (Return tt, with_readers ra rg rk p))
  ∧ ((startReading p).1 = Return tt → ∃ ra rg rk, files_ready p ra rg rk).
Proof.
  split.
  - intros ra rg rk (ha & hg & hk & Ha & Hg & Hk).
    unfold startReading. run. rewrite Ha. simpl. rewrite Hg. simpl.
    rewrite Hk. reflexivity.
  - unfold startReading, files_ready. run.
    destruct (files p !! accelerometer_filename (self p)) as [[|ha ra]|];
      simpl; [done| |done].
    destruct (files p !! gps_filename (self p)) as [[|hg rg]|];
      simpl; [done| |done].
    destruct (files p !! parking_filename (self p)) as [[|hk rk]|];
      simpl; [done| |done].
    intros _. exists ra, rg, rk, ha, hg, hk. done.
Qed.


End StartReadingProperties.

Section ReadProperties.

Import Datasource DatasourceSpec FilesSpec.

Variable py_int : string → option Z.
Variable py_float : string → option float.
Variable USER_ID : Z.

Local Abbreviation read := (read py_int py_float USER_ID).
Local Abbreviation aggregate := (aggregate py_int py_float USER_ID).
Local Abbreviation after_reads := (after_reads py_int py_float USER_ID).

Ltac run :=
  unfold next_row, open_reader, on_self, print, sys_exit, close_if_set,
    try_except, Py.bind, get, modify, lift, ret, raise;
  simpl.

(** X16.  A [read] on a datasource whose accelerometer reader was never
    opened raises [TypeError], not the [SystemExit] of an ended stream, and
    changes nothing. *)
Theorem read_before_start now p :
  accelerometer_data (self p) = None →
  read now p = (Raise TypeError, p).
Proof.
  intros Hnone. unfold Datasource.read. run. by rewrite Hnone.
Qed.

Lemma int_field_raises r i e :
  int_field py_int r i = Raise e → e = ValueError ∨ e = IndexError.
Proof.
  unfold int_field, getitem. repeat case_match; intros ?; simplify_eq; auto.
Qed.

Lemma float_field_raises r i e :
  float_field py_float r i = Raise e → e = ValueError ∨ e = IndexError.
Proof.
  unfold float_field, getitem. repeat case_match; intros ?; simplify_eq; auto.
Qed.

Lemma aggregate_outcome now a g k p :
  (∃ d, (aggregate now a g k p).1 = Return d)
  ∨ (aggregate now a g k p).1 = Raise ValueError
  ∨ (aggregate now a g k p).1 = Raise IndexError.
Proof.
  unfold Datasource.aggregate. run.
  repeat (match goal with
          | |- context [match int_field py_int ?r ?i with _ => _ end] =>
              let E := fresh "E" in
              destruct (int_field py_int r i) eqn:E; simpl;
              [|apply int_field_raises in E as [-> | ->]; by auto]
          | |- context [match float_field py_float ?r ?i with _ => _ end] =>
              let E := fresh "E" in
              destruct (float_field py_float r i) eqn:E; simpl;
              [|apply float_field_raises in E as [-> | ->]; by auto]
          end).
  left. eauto.
Qed.

Lemma read_rows now p ra rg rk a g k ra' rg' rk' :
  accelerometer_data (self p) = Some ra →
  gps_data (self p) = Some rg →
  parking_data (self p) = Some rk →
  pending ra = a :: ra' → pending rg = g :: rg' → pending rk = k :: rk' →
  read now p
  = ((aggregate now a g k (with_readers ra' rg' rk' p)).1,
     with_readers ra' rg' rk' p).
Proof.
  intros Ha Hg Hk Ea Eg Ek.
  unfold Datasource.read. run.
  rewrite Ha, Ea. simpl. rewrite Hg, Eg. simpl. rewrite Hk, Ek. simpl.
  pose proof (aggregate_state py_int py_float USER_ID now a g k
                (with_readers ra' rg' rk' p)) as Hst.
  unfold with_readers in *. simpl in *.
  destruct (Datasource.aggregate py_int py_float USER_ID now a g k _) as [r p'].
  simpl in *. by subst.
Qed.

(** X17.  When each of the three readers has a row, [read] takes the three
    rows whether or not they can be parsed: it returns a sample, or raises
    [ValueError] (a field that is no number) or [IndexError] (a row that is
    too short), and in every case each reader has moved on by one row. *)
Theorem read_takes_rows_even_if_malformed now p ra rg rk a g k ra' rg' rk' :
  accelerometer_data (self p) = Some ra →
  gps_data (self p) = Some rg →
  parking_data (self p) = Some rk →
  pending ra = a :: ra' → pending rg = g :: rg' → pending rk = k :: rk' →
  (read now p).2 = with_readers ra' rg' rk' p
  ∧ ((∃ d, (read now p).1 = Return d)
     ∨ (read now p).1 = Raise ValueError
     ∨ (read now p).1 = Raise IndexError).
Proof.
  intros Ha Hg Hk Ea Eg Ek.
  rewrite (read_rows now p ra rg rk a g k ra' rg' rk' Ha Hg Hk Ea Eg Ek).
  split; [done|]. simpl. apply aggregate_outcome.
Qed.

Lemma after_reads_with_readers clock ra rg rk p :
  (length clock ≤ length ra)%nat →
  (length clock ≤ length rg)%nat →
  (length clock ≤ length rk)%nat →
  after_reads clock (with_readers ra rg rk p)
  = with_readers (drop (length clock) ra) (drop (length clock) rg)
      (drop (length clock) rk) p.
Proof.
  revert ra rg rk. induction clock as [|now clock IH]; intros ra rg rk La Lg Lk.
  - done.
  - destruct ra as [|a ra]; [simpl in La; lia|].
    destruct rg as [|g rg]; [simpl in Lg; lia|].
    destruct rk as [|k rk]; [simpl in Lk; lia|].
    cbn [DatasourceSpec.after_reads].
    rewrite (read_rows now (with_readers (a :: ra) (g :: rg) (k :: rk) p)
               (Reader (a :: ra)) (Reader (g :: rg)) (Reader (k :: rk))
               a g k ra rg rk eq_refl eq_refl eq_refl eq_refl eq_refl eq_refl).
    cbn [snd]. simpl in La, Lg, Lk.
    change (with_readers ra rg rk (with_readers (a :: ra) (g :: rg) (k :: rk) p))
      with (with_readers ra rg rk p).
    rewrite IH by lia. reflexivity.
Qed.

(** X18.  The reads stay aligned with the lines of the files: after a
    successful [startReading] and [n] calls of [read], whatever these gave,
    each reader stands at line [n] of the data of its file, as long as every
    file has that many lines of data. *)
Theorem reads_stay_aligned clock p ra rg rk :
  files_ready p ra rg rk →
  (length clock ≤ length ra)%nat →
  (length clock ≤ length rg)%nat →
  (length clock ≤ length rk)%nat →
  after_reads clock (startReading p).2
  = with_readers (drop (length clock) ra) (drop (length clock) rg)
      (drop (length clock) rk) p.
Proof.
  intros (ha & hg & hk & Ha & Hg & Hk) La Lg Lk.
  assert (startReading p = (Return tt, with_readers ra rg rk p)) as ->.
  { unfold startReading. run. rewrite Ha. simpl. rewrite Hg. simpl.
    rewrite Hk. reflexivity. }
  by apply after_reads_with_readers.
Qed.

End ReadProperties.

Lemma startReading_skips_headers_witness :
  Datasource.startReading Samples.fresh_process
  = (Return tt,
     DatasourceSpec.with_readers [["1"; "2"; "16500"]] [["10.0"; "20.0"]]
       [["3"; "10.0"; "20.0"]] Samples.fresh_process).
Proof.
  apply (proj1 (startReading_skips_headers Samples.fresh_process)).
  exists ["x"; "y"; "z"], ["longitude"; "latitude"],
    ["empty_count"; "longitude"; "latitude"].
  repeat split.
Defined.


Lemma read_before_start_witness :
  Datasource.read Samples.int_of Samples.float_of 1 Samples.new_year
    Samples.fresh_process
  = (Raise TypeError, Samples.fresh_process).
Proof.
  apply (read_before_start Samples.int_of Samples.float_of 1 Samples.new_year
           Samples.fresh_process).
  reflexivity.
Defined.

Lemma read_takes_rows_even_if_malformed_witness :
  (Datasource.read (λ _, None) Samples.float_of 1 Samples.new_year
     Samples.started_process).2
  = DatasourceSpec.with_readers [] [] [] Samples.started_process.
Proof.
  apply (read_takes_rows_even_if_malformed (λ _, None) Samples.float_of 1
           Samples.new_year Samples.started_process
           _ _ _ _ _ _ [] [] [] eq_refl eq_refl eq_refl eq_refl eq_refl eq_refl).
Defined.

Lemma reads_stay_aligned_witness :
  DatasourceSpec.after_reads Samples.int_of Samples.float_of 1 [Samples.new_year]
    (Datasource.startReading Samples.fresh_process).2
  = DatasourceSpec.with_readers [] [] [] Samples.fresh_process.
Proof.
  apply (reads_stay_aligned Samples.int_of Samples.float_of 1 [Samples.new_year]
           Samples.fresh_process [["1"; "2"; "16500"]] [["10.0"; "20.0"]]
           [["3"; "10.0"; "20.0"]]).
  - exists ["x"; "y"; "z"], ["longitude"; "latitude"],
      ["empty_count"; "longitude"; "latitude"].
    repeat split.
  - simpl. lia.
  - simpl. lia.
  - simpl. lia.
Defined.

(** ** More on the classifier *)

Section ClassifierOrder.

Import Classifier.

Lemma flt_fle_trans (c a b : float) :
  flt c a = true → fle a b = true → flt c b = true.
Proof.
  unfold flt, fle, SFltb, SFleb.
  destruct c as [sc|sc| |sc mc ec], a as [sa|sa| |sa ma ea], b as [sb|sb| |sb mb eb];
    simpl; try done;
    repeat match goal with
           | s : bool |- _ => destruct s; simpl; try done
           end;
    change (PosDef.Pos.compare_cont Eq) with Pos.compare;
    repeat match goal with
           | |- context [(?x ?= ?y)%Z] =>
               destruct (Z.compare_spec x y); simpl; try done
           | |- context [(?x ?= ?y)%positive] =>
               destruct (Pos.compare_spec x y); simpl; try done
           end;
    try lia.
Qed.

(** X19.  The label is monotone in the reading: when a sample is a pit,
    every sample whose [y] is at least as large is a pit too (and so a
    sample below a straight one is straight). *)
Theorem pit_is_monotone (low high : AgentData) :
  road_state (process_agent_data low) = "pit" →
  fle (y (accelerometer low)) (y (accelerometer high)) = true →
  road_state (process_agent_data high) = "pit".
Proof.
  unfold process_agent_data, fgt. simpl.
  destruct (flt fifteen (y (accelerometer low))) eqn:Hlow; [|done].
  intros _ Hle. by rewrite (flt_fle_trans _ _ _ Hlow Hle).
Qed.

End ClassifierOrder.

Lemma pit_is_monotone_witness :
  Classifier.road_state
    (Classifier.process_agent_data
       {| Classifier.accelerometer :=
            {| Classifier.x := Samples.f1; Classifier.y := Samples.f20;
               Classifier.z := Samples.f3 |};
          Classifier.gps :=
            {| Classifier.latitude := Samples.f10; Classifier.longitude := Samples.f20 |};
          Classifier.timestamp := Samples.new_year |})
  = "pit".
Proof.
  apply (pit_is_monotone
           {| Classifier.accelerometer :=
                {| Classifier.x := Samples.f1; Classifier.y := Samples.f16;
                   Classifier.z := Samples.f3 |};
              Classifier.gps :=
                {| Classifier.latitude := Samples.f10;
                   Classifier.longitude := Samples.f20 |};
              Classifier.timestamp := Samples.new_year |}).
  - reflexivity.
  - reflexivity.
Defined.
